(** * build-golang: the archive builder and the archive fixer

    A shallow embedding of [scripts/create_tar.py] and
    [scripts/fix_tar_execs.py].  Both scripts drive Python's [tarfile]
    module; the part of that module they rely on is modelled in
    [Module Tarfile], the scripts themselves in [Module FixTarExecs] and
    [Module CreateTar].

    An archive is the sequence of its members, each a header and the
    data that follows it; gzip and the byte layout of the 512-byte
    blocks are not modelled.  What [tarfile] itself changes between a
    [TarInfo] in memory and a header on disk is: [get_info] on the way
    out, [frombuf] on the way in.  I/O errors come from the
    environment, which is a budget of operations that succeed before
    the first one fails. *)

From Stdlib Require Import ZArith String Ascii List Lia Bool.
From Stdlib.Strings Require Import Byte.
From stdpp Require Import base option list strings gmap.

Local Open Scope string_scope.
Local Open Scope Z_scope.

(** ** Python strings *)

Module PyStr.

(** [s.startswith(p)] *)
Definition startswith (s p : string) : bool := String.prefix p s.

(** [s[n:]] *)
Fixpoint slice_from (n : nat) (s : string) : string :=
  match n, s with
  | O, _ => s
  | S _, EmptyString => EmptyString
  | S n', String _ r => slice_from n' r
  end.

(** [s.endswith("/")] *)
Fixpoint endswith_slash (s : string) : bool :=
  match s with
  | EmptyString => false
  | String c EmptyString => Ascii.eqb c "/"
  | String _ r => endswith_slash r
  end.

(** [s.rstrip("/")] *)
Fixpoint rstrip_slash (s : string) : string :=
  match s with
  | EmptyString => EmptyString
  | String c r =>
      match rstrip_slash r with
      | EmptyString => if Ascii.eqb c "/" then EmptyString else String c EmptyString
      | r' => String c r'
      end
  end.

(** [s.lstrip("/")] *)
Fixpoint lstrip_slash (s : string) : string :=
  match s with
  | String c r => if Ascii.eqb c "/" then lstrip_slash r else s
  | EmptyString => EmptyString
  end.

(** [x or d] on integers: [d] when [x] is falsy, that is zero. *)
Definition or_else (x d : Z) : Z := if x =? 0 then d else x.

End PyStr.

(** ** The part of [tarfile] the scripts use *)

Module Tarfile.

Definition REGTYPE : byte := "0"%byte.
Definition AREGTYPE : byte := Byte.x00.
Definition LNKTYPE : byte := "1"%byte.
Definition SYMTYPE : byte := "2"%byte.
Definition CHRTYPE : byte := "3"%byte.
Definition BLKTYPE : byte := "4"%byte.
Definition DIRTYPE : byte := "5"%byte.
Definition FIFOTYPE : byte := "6"%byte.
Definition CONTTYPE : byte := "7"%byte.
Definition GNUTYPE_LONGNAME : byte := "L"%byte.
Definition GNUTYPE_LONGLINK : byte := "K"%byte.
Definition GNUTYPE_SPARSE : byte := "S"%byte.

Definition SUPPORTED_TYPES : list byte :=
  [REGTYPE; AREGTYPE; LNKTYPE; SYMTYPE; DIRTYPE; FIFOTYPE; CONTTYPE;
   CHRTYPE; BLKTYPE; GNUTYPE_LONGNAME; GNUTYPE_LONGLINK; GNUTYPE_SPARSE].

Definition REGULAR_TYPES : list byte :=
  [REGTYPE; AREGTYPE; CONTTYPE; GNUTYPE_SPARSE].

(** [t in TYPES] *)
Definition type_in (t : byte) (ts : list byte) : bool :=
  existsb (Byte.eqb t) ts.

(** Permission constants, written in octal in the scripts. *)
Definition o755 : Z := 493.   (* 0o755 *)
Definition o644 : Z := 420.   (* 0o644 *)
Definition o7777 : Z := 4095. (* 0o7777 *)

(** The attributes of a [TarInfo] that the scripts read or write.
    [chksum], [devmajor], [devminor], [sparse] and [pax_headers] are
    never touched by either script and are left out. *)
Record TarInfo := mkTarInfo {
  name : string;
  mode : Z;
  uid : Z;
  gid : Z;
  size : Z;
  mtime : Z;
  type : byte;
  linkname : string;
  uname : string;
  gname : string
}.

(** [TarInfo(name=nm)]: the constructor's defaults. *)
Definition TarInfo_init (nm : string) : TarInfo :=
  {| name := nm; mode := o644; uid := 0; gid := 0; size := 0; mtime := 0;
     type := REGTYPE; linkname := ""; uname := ""; gname := "" |}.

(** Attribute assignment [t.field = v]. *)
Definition set_name (v : string) (t : TarInfo) : TarInfo :=
  mkTarInfo v (mode t) (uid t) (gid t) (size t) (mtime t) (type t)
            (linkname t) (uname t) (gname t).
Definition set_mode (v : Z) (t : TarInfo) : TarInfo :=
  mkTarInfo (name t) v (uid t) (gid t) (size t) (mtime t) (type t)
            (linkname t) (uname t) (gname t).
Definition set_uid (v : Z) (t : TarInfo) : TarInfo :=
  mkTarInfo (name t) (mode t) v (gid t) (size t) (mtime t) (type t)
            (linkname t) (uname t) (gname t).
Definition set_gid (v : Z) (t : TarInfo) : TarInfo :=
  mkTarInfo (name t) (mode t) (uid t) v (size t) (mtime t) (type t)
            (linkname t) (uname t) (gname t).
Definition set_mtime (v : Z) (t : TarInfo) : TarInfo :=
  mkTarInfo (name t) (mode t) (uid t) (gid t) (size t) v (type t)
            (linkname t) (uname t) (gname t).
Definition set_type (v : byte) (t : TarInfo) : TarInfo :=
  mkTarInfo (name t) (mode t) (uid t) (gid t) (size t) (mtime t) v
            (linkname t) (uname t) (gname t).
Definition set_uname (v : string) (t : TarInfo) : TarInfo :=
  mkTarInfo (name t) (mode t) (uid t) (gid t) (size t) (mtime t) (type t)
            (linkname t) v (gname t).
Definition set_gname (v : string) (t : TarInfo) : TarInfo :=
  mkTarInfo (name t) (mode t) (uid t) (gid t) (size t) (mtime t) (type t)
            (linkname t) (uname t) v.

Definition isreg (t : TarInfo) : bool := type_in (type t) REGULAR_TYPES.
Definition isdir (t : TarInfo) : bool := Byte.eqb (type t) DIRTYPE.
Definition issym (t : TarInfo) : bool := Byte.eqb (type t) SYMTYPE.
Definition islnk (t : TarInfo) : bool := Byte.eqb (type t) LNKTYPE.

(** One member of an archive: its header and the data blocks that
    follow it. *)
Record entry := mkEntry {
  header : TarInfo;
  data : list byte
}.

(** [TarInfo.get_info], which [tobuf] calls to build the header that
    [addfile] writes: the mode keeps its low twelve bits and a
    directory name gets a trailing slash. *)
Definition get_info (t : TarInfo) : TarInfo :=
  let nm :=
    if Byte.eqb (type t) DIRTYPE && negb (PyStr.endswith_slash (name t))
    then (name t ++ "/")%string else name t in
  set_name nm (set_mode (Z.land (mode t) o7777) t).

(** What the reader makes of a stored header ([frombuf] and
    [_proc_builtin]): a V7 regular file whose name ends in a slash is a
    directory, and directory names lose their trailing slashes. *)
Definition frombuf (t : TarInfo) : TarInfo :=
  let t1 :=
    if Byte.eqb (type t) AREGTYPE && PyStr.endswith_slash (name t)
    then set_type DIRTYPE t else t in
  if isdir t1 then set_name (PyStr.rstrip_slash (name t1)) t1 else t1.

(** [TarFile.getmembers()] on an archive opened for reading. *)
Definition getmembers (a : list entry) : list entry :=
  map (fun e => mkEntry (frombuf (header e)) (data e)) a.

(** Outcome of a call that may raise. *)
Inductive result (A : Type) : Type :=
| Ok (a : A)
| Raised.
Arguments Ok {A} a.
Arguments Raised {A}.

(** [tarfile.copyfileobj(src, dst, length)]: exactly [length] bytes
    are copied; [if length == 0: return] copies nothing, and a source
    that ends early raises ["unexpected end of data"]. *)
Definition copyfileobj (src : list byte) (length : Z) : result (list byte) :=
  if length =? 0 then Ok []
  else if (Z.of_nat (List.length src) <? length) then Raised
  else Ok (firstn (Z.to_nat length) src).

(** An archive opened for writing: [members] is the list of [TarInfo]
    copies the object keeps, [fileobj] what has reached the file.
    [budget] stands for the environment: [Some k] means that the
    [k+1]-th I/O operation from now on fails, [None] that none does. *)
Record TarFile := mkTarFile {
  members : list TarInfo;
  fileobj : list entry;
  budget : option nat
}.

(** Computations that write to a [TarFile] and may raise. *)
Definition io (A : Type) : Type := TarFile -> result A * TarFile.

Definition ret {A} (a : A) : io A := fun s => (Ok a, s).
Definition raise {A} : io A := fun s => (Raised, s).
Definition bind {A B} (c : io A) (k : A -> io B) : io B :=
  fun s => match c s with
           | (Ok a, s') => k a s'
           | (Raised, s') => (Raised, s')
           end.

(** [for x in xs: body(x)] *)
Fixpoint for_each {A} (xs : list A) (body : A -> io unit) : io unit :=
  match xs with
  | [] => ret tt
  | x :: xs' => bind (body x) (fun _ => for_each xs' body)
  end.

(** One I/O operation on the underlying streams. *)
Definition tick : io unit :=
  fun s => match budget s with
           | Some O => (Raised, s)
           | Some (S k) => (Ok tt, mkTarFile (members s) (fileobj s) (Some k))
           | None => (Ok tt, s)
           end.

(** The tail of [addfile]: the header and its data reach the file and
    the [TarInfo] is appended to [members]. *)
Definition emit (tarinfo : TarInfo) (d : list byte) : io unit :=
  fun s => (Ok tt, mkTarFile (members s ++ [tarinfo])
                             (fileobj s ++ [mkEntry (get_info tarinfo) d])
                             (budget s)).

(** [TarFile.addfile(tarinfo, fileobj)]: the header built from
    [get_info] is written; then, [if fileobj is not None],
    [copyfileobj(fileobj, self.fileobj, tarinfo.size)] appends exactly
    [tarinfo.size] bytes read from [fileobj]. *)
Definition addfile (tarinfo : TarInfo) (f : option (list byte)) : io unit :=
  bind tick (fun _ =>
  match f with
  | None => emit tarinfo []
  | Some src =>
      match copyfileobj src (size tarinfo) with
      | Ok d => emit tarinfo d
      | Raised => raise
      end
  end).

Section Reading.

(** What [extractfile] returns for a hard or symbolic link: the file
    object of the member that [_find_link_target] finds in the
    archive, or the [KeyError] it raises when there is none. *)
Variable link_fileobj : list entry -> TarInfo -> result (option (list byte)).

(** [TarFile.extractfile(member)] on an archive opened with ["r:gz"];
    members of unknown type are treated as regular files. *)
Definition extractfile (src : list entry) (member : entry)
  : result (option (list byte)) :=
  let tarinfo := header member in
  if isreg tarinfo || negb (type_in (type tarinfo) SUPPORTED_TYPES)
  then Ok (Some (data member))
  else if islnk tarinfo || issym tarinfo
  then link_fileobj src tarinfo
  else Ok None.

End Reading.

(** A file on disk, as far as the scripts can tell: an empty file (as
    [mkstemp] leaves it, not a readable archive) or a gzip-compressed
    tar archive with the given members. *)
Inductive file : Type :=
| Blank
| TarGz (a : list entry).

(** [c] neither raises nor meets a fault when none is pending. *)
Definition unfailing {A} (c : io A) : Prop :=
  forall s, budget s = None ->
            (exists a, fst (c s) = Ok a) /\ budget (snd (c s)) = None.

(** Every entry that has reached the file satisfies [P]. *)
Definition all_written (P : entry -> Prop) (s : TarFile) : Prop :=
  Forall P (fileobj s).

(** What reaches the file for a [TarInfo] and the bytes copied after
    its header. *)
Definition stored (it : TarInfo * list byte) : entry :=
  mkEntry (get_info (fst it)) (snd it).

(** A straight run of writes: for each item one I/O operation, then
    its header and data.  The loops of both scripts are shown to be of
    this shape. *)
Definition write_all (items : list (TarInfo * list byte)) : io unit :=
  for_each items (fun it => bind tick (fun _ => emit (fst it) (snd it))).

End Tarfile.

(** ** [scripts/fix_tar_execs.py] *)

Module FixTarExecs.
Import Tarfile.

Definition normalize (name : string) : string :=
  if PyStr.startswith name "./" then PyStr.slice_from 2 name else name.

Section Fixer.

Variable link_fileobj : list entry -> TarInfo -> result (option (list byte)).

(** The body of the loop over [src.getmembers()]. *)
Definition fix_member (src : list entry) (member : entry) : io unit :=
  let name := normalize (Tarfile.name (header member)) in
  let m := TarInfo_init (Tarfile.name (header member)) in
  let m := set_uid (uid (header member)) m in
  let m := set_gid (gid (header member)) m in
  let m := set_uname (uname (header member)) m in
  let m := set_gname (gname (header member)) m in
  let m := set_mtime (mtime (header member)) m in
  let m := set_type (type (header member)) m in
  if isdir (header member) then
    let m := set_mode o755 m in
    addfile m None
  else if isreg (header member) then
    let m :=
      if PyStr.startswith name "go/bin/" || PyStr.startswith name "go/pkg/tool/"
      then set_mode o755 m
      else set_mode o644 m in
    match extractfile link_fileobj src member with
    | Ok f => addfile m f
    | Raised => raise
    end
  else
    let m := set_mode (PyStr.or_else (mode (header member)) o644) m in
    let f := match extractfile link_fileobj src member with
             | Ok f => f
             | Raised => None
             end in
    addfile m f.

(** The [with] block of [fix_tar]: the source archive is read (one
    I/O operation) and every member is rewritten into [dst]. *)
Definition rewrite_archive (a : list entry) : io unit :=
  bind tick (fun _ =>
  let src := getmembers a in
  for_each src (fix_member src)).

(** [fix_tar(tar_path)].  [tmp_path] is the name [mkstemp] returns and
    [faults] the environment's I/O budget; [shutil.move] and
    [os.remove] are taken to succeed. *)
Definition fix_tar (tar_path tmp_path : string) (faults : option nat)
           (fs : gmap string file) : result unit * gmap string file :=
  (* tempfile.mkstemp; os.close *)
  let fs := <[tmp_path := Blank]> fs in
  (* try: with tarfile.open(tar_path, "r:gz") as src,
               tarfile.open(tmp_path, "w:gz") as dst *)
  let '(r, fs) :=
    match fs !! tar_path with
    | Some (TarGz a) =>
        let '(r, dst) := rewrite_archive a (mkTarFile [] [] faults) in
        (r, <[tmp_path := TarGz (fileobj dst)]> fs)
    | _ => (Raised, fs)
    end in
  (* shutil.move(tmp_path, tar_path) *)
  let '(r, fs) :=
    match r with
    | Ok _ =>
        match fs !! tmp_path with
        | Some f => (Ok tt, <[tar_path := f]> (delete tmp_path fs))
        | None => (Raised, fs)
        end
    | Raised => (Raised, fs)
    end in
  (* finally: if os.path.exists(tmp_path): os.remove(tmp_path) *)
  let fs := match fs !! tmp_path with
            | Some _ => delete tmp_path fs
            | None => fs
            end in
  (r, fs).

(** The script body: [sys.argv = argv]; the result is the exit code. *)
Definition main (argv : list string) (tmp_path : string) (faults : option nat)
           (fs : gmap string file) : Z * gmap string file :=
  if negb (List.length argv =? 2)%nat then (2, fs)
  else
    let tarfile_path := nth 1 argv "" in
    match fs !! tarfile_path with
    | None => (2, fs)
    | Some _ =>
        match fix_tar tarfile_path tmp_path faults fs with
        | (Ok _, fs) => (0, fs)
        | (Raised, fs) => (1, fs)
        end
    end.

(** The archive a fault-free run writes. *)
Definition fixed (a : list entry) : list entry :=
  fileobj (snd (rewrite_archive a (mkTarFile [] [] None))).

(** The [TarInfo] objects a fault-free run hands to [addfile]. *)
Definition descriptors (a : list entry) : list TarInfo :=
  members (snd (rewrite_archive a (mkTarFile [] [] None))).

End Fixer.

(** *** Vocabulary for the statements *)

(** [s] starts with [p]. *)
Definition starts_with (s p : string) : Prop :=
  exists r, s = (p ++ r)%string.

(** [s] is [name] after stripping a leading ["./"]. *)
Definition stripped (name s : string) : Prop :=
  (exists r, name = ("./" ++ r)%string /\ s = r)
  \/ (~ starts_with name "./" /\ s = name).

(** The names the fixer treats as executables. *)
Definition toolchain_name (s : string) : Prop :=
  starts_with s "go/bin/" \/ starts_with s "go/pkg/tool/".

(** The mode column of an archive. *)
Definition modes (a : list entry) : list Z :=
  map (fun e => mode (header e)) a.

(** The descriptor that lines 19-45 build for a member, in closed form;
    [fix_member_run] shows it is what [fix_member] hands to [addfile]. *)
Definition new_mode (t : TarInfo) : Z :=
  if isdir t then o755
  else if isreg t then
    if PyStr.startswith (normalize (name t)) "go/bin/"
       || PyStr.startswith (normalize (name t)) "go/pkg/tool/"
    then o755 else o644
  else PyStr.or_else (mode t) o644.

Definition rebuilt (t : TarInfo) : TarInfo :=
  mkTarInfo (name t) (new_mode t) (uid t) (gid t) 0 (mtime t) (type t)
            "" (uname t) (gname t).

(** A member whose mode survives a rewrite unchanged once it has been
    written: a file, a directory, or an entry of another type whose
    mode is zero or has one of its twelve permission bits set. *)
Definition settled (t : TarInfo) : Prop :=
  isdir t = false -> isreg t = false ->
  mode t <> 0 -> Z.land (mode t) o7777 <> 0.

(** The two halves of the idempotence property as the specification
    words it. *)
Definition rerun_keeps_modes
           (lf : list entry -> TarInfo -> result (option (list byte))) : Prop :=
  forall a, modes (fixed lf (fixed lf a)) = modes (fixed lf a).

Definition mode_from_name_and_type
           (lf : list entry -> TarInfo -> result (option (list byte))) : Prop :=
  exists f : string -> byte -> Z,
    forall a, Forall2 (fun e out => mode (header out) = f (name (header e)) (type (header e)))
                      (getmembers a) (fixed lf a).

(** *** Sample archives *)

(** An archive without link targets: every lookup raises [KeyError]. *)
Definition no_links : list entry -> TarInfo -> result (option (list byte)) :=
  fun _ _ => Raised.

Definition sample (nm : string) (ty : byte) (md : Z) (ln : string)
           (d : list byte) : entry :=
  mkEntry (mkTarInfo nm md 1000 1000 (Z.of_nat (List.length d)) 1700000000
                     ty ln "builder" "staff") d.

Definition abc : list byte := ["a"%byte; "b"%byte; "c"%byte].

(** A small toolchain archive. *)
Definition go_archive : list entry :=
  [ sample "go/" DIRTYPE 448 "" [];
    sample "go/bin/go" REGTYPE 420 "" abc;
    sample "./go/pkg/tool/linux_amd64/compile" REGTYPE 384 "" abc;
    sample "go/src/main.go" REGTYPE 511 "" abc;
    sample "go/bin/gofmt" SYMTYPE 511 "go" [] ].

End FixTarExecs.

(** ** [scripts/create_tar.py] *)

Module CreateTar.
Import Tarfile.

(** The fields of [os.lstat] that [gettarinfo] copies. *)
Record stat_result := mkStat {
  st_mode : Z;
  st_uid : Z;
  st_gid : Z;
  st_mtime : Z
}.

(** A source tree of directories and regular files, each with its
    [lstat]; a directory lists its entries in [scandir] order.
    Symbolic links, hard links and special files are outside the
    model, and so is what the script prints. *)
#[warnings="-register-all"]
Inductive node : Type :=
| File (st : stat_result) (content : list byte)
| Dir (st : stat_result) (children : list (string * node)).

Definition stat_of (n : node) : stat_result :=
  match n with File st _ => st | Dir st _ => st end.

Definition is_dir (n : node) : bool :=
  match n with Dir _ _ => true | File _ _ => false end.

(** What a path names: a source tree or an archive written earlier. *)
Inductive fsobj : Type :=
| Node (n : node)
| Tar (a : list entry).

(** [n] is found in [top] by following the segments [parts]. *)
Inductive at_path : node -> list string -> node -> Prop :=
| at_here n : at_path n [] n
| at_child st children seg c parts n :
    In (seg, c) children -> at_path c parts n ->
    at_path (Dir st children) (seg :: parts) n.

(** [str(Path(base_name) / rel)] for a relative path given by its
    [parts]. *)
Definition path_str (base_name : string) (parts : list string) : string :=
  String.concat "/" (base_name :: parts).

(** Lines 44-51: the classification of a file by the [parts] of its
    path relative to the source root. *)
Definition is_executable (parts : list string) : bool :=
  if (2 <=? List.length parts)%nat && String.eqb (nth 0 parts "") "bin"
  then true
  else if (3 <=? List.length parts)%nat && String.eqb (nth 0 parts "") "pkg"
          && String.eqb (nth 1 parts "") "tool"
  then true
  else if (1 <=? List.length parts)%nat && String.eqb (nth 0 parts "") "tools"
  then true
  else false.

(** [os.walk(top)], top-down: a directory yields its sub-directories
    and its other entries before the walk descends.  [root] is kept as
    the segments of the directory relative to [top], which is what
    [Path(root).relative_to(source_path)] recovers. *)
Fixpoint os_walk (root : list string) (n : node)
  : list (list string * list (string * node) * list (string * node)) :=
  match n with
  | File _ _ => []
  | Dir _ children =>
      (root,
       List.filter (fun c => is_dir (snd c)) children,
       List.filter (fun c => negb (is_dir (snd c))) children)
      :: (fix descend (cs : list (string * node)) :=
            match cs with
            | [] => []
            | (dir_name, c) :: cs' =>
                (os_walk (root ++ [dir_name]) c ++ descend cs')%list
            end) children
  end.

Section Builder.

(** [pwd.getpwuid(uid)[0]] and [grp.getgrgid(gid)[0]]. *)
Variables getpwuid getgrgid : Z -> option string.

(** [Path(p).resolve()] *)
Variable resolve : string -> string.

(** [tar.gettarinfo(path, arcname=arcname)] for the node at [path]. *)
Definition gettarinfo (n : node) (arcname : string) : TarInfo :=
  let arcname := PyStr.lstrip_slash arcname in
  let st := stat_of n in
  {| name := arcname;
     mode := st_mode st;
     uid := st_uid st;
     gid := st_gid st;
     size := match n with
             | File _ content => Z.of_nat (List.length content)
             | Dir _ _ => 0
             end;
     mtime := st_mtime st;
     type := if is_dir n then DIRTYPE else REGTYPE;
     linkname := "";
     uname := default "" (getpwuid (st_uid st));
     gname := default "" (getgrgid (st_gid st)) |}.

(** Lines 27-33, the body of [for dir_name in dirs]. *)
Definition add_dir (base_name : string) (root : list string)
           (d : string * node) : io unit :=
  let rel := (root ++ [fst d])%list in
  let arcname := path_str base_name rel in
  let tarinfo := gettarinfo (snd d) arcname in
  let tarinfo := set_mode o755 tarinfo in
  addfile tarinfo None.

(** Lines 35-56, the body of [for file_name in files]. *)
Definition add_file (base_name : string) (root : list string)
           (f : string * node) : io unit :=
  let rel := (root ++ [fst f])%list in
  let arcname := path_str base_name rel in
  let tarinfo := gettarinfo (snd f) arcname in
  let parts := rel in
  let tarinfo := set_mode (if is_executable parts then o755 else o644) tarinfo in
  match snd f with
  | File _ content => addfile tarinfo (Some content)
  | Dir _ _ => raise                 (* open(file_path, "rb") on a directory *)
  end.

(** Lines 21-56: what is written into the opened archive. *)
Definition build (base_name : string) (source : node) : io unit :=
  let base_dir_info := gettarinfo source (path_str base_name []) in
  let base_dir_info := set_mode o755 base_dir_info in
  bind (addfile base_dir_info None) (fun _ =>
  for_each (os_walk [] source) (fun '(root, dirs, files) =>
    bind (for_each dirs (add_dir base_name root)) (fun _ =>
    for_each files (add_file base_name root)))).

(** [create_tar_with_permissions(source_dir, output_tar, base_name)];
    [faults] is the environment's I/O budget.  Opening the output
    fails on a directory and is otherwise one I/O operation. *)
Definition create_tar_with_permissions
           (source_dir output_tar base_name : string) (faults : option nat)
           (fs : gmap string fsobj) : bool * gmap string fsobj :=
  let source_path := resolve source_dir in
  match fs !! source_path with
  | None => (false, fs)
  | Some (Tar _) => (false, fs)
  | Some (Node (File _ _)) => (false, fs)
  | Some (Node (Dir st children)) =>
      match fs !! output_tar with
      | Some (Node (Dir _ _)) => (false, fs)
      | _ =>
          match tick (mkTarFile [] [] faults) with
          | (Raised, _) => (false, fs)
          | (Ok _, tar) =>
              let '(r, tar) := build base_name (Dir st children) tar in
              let fs := <[output_tar := Tar (fileobj tar)]> fs in
              match r with
              | Raised => (false, fs)
              | Ok _ =>
                  match fs !! output_tar with
                  | None => (false, fs)
                  | Some _ => (true, fs)
                  end
              end
          end
      end
  end.

(** [main()] with [sys.argv = argv]; the result is the exit code. *)
Definition main (argv : list string) (faults : option nat)
           (fs : gmap string fsobj) : Z * gmap string fsobj :=
  if negb (List.length argv =? 3)%nat then (2, fs)
  else
    let source_dir := nth 1 argv "" in
    let output_tar := nth 2 argv "" in
    let '(success, fs) :=
      create_tar_with_permissions source_dir output_tar "go" faults fs in
    (if success then 0 else 1, fs).

End Builder.

(** *** Vocabulary for the statements *)

(** The paths the specification calls executable: first segment [bin]
    and at least two segments, or first two segments [pkg], [tool] and
    at least three segments, or first segment [tools]. *)
Definition executable_path (parts : list string) : Prop :=
  (2 <= List.length parts /\ parts !! 0%nat = Some "bin")%nat
  \/ (3 <= List.length parts /\ parts !! 0%nat = Some "pkg"
       /\ parts !! 1%nat = Some "tool")%nat
  \/ parts !! 0%nat = Some "tools".

(** A directory name as it is stored: with one slash at its end. *)
Definition with_slash (s : string) : string :=
  if PyStr.endswith_slash s then s else (s ++ "/")%string.

(** What the specification promises of an entry [e] of an archive built
    from [source] under [base_name]: it stands for the node at some
    relative path, carries that path under the base name, and has mode
    0755 when the node is a directory or an executable path, mode 0644
    otherwise; a file's entry holds the file's bytes. *)
Definition written_ok (base_name : string) (source : node) (e : entry) : Prop :=
  exists parts n,
    at_path source parts n
    /\ match n with
       | Dir _ _ =>
           type (header e) = DIRTYPE
           /\ name (header e)
              = with_slash (PyStr.lstrip_slash (path_str base_name parts))
           /\ mode (header e) = o755
       | File _ content =>
           type (header e) = REGTYPE
           /\ name (header e) = PyStr.lstrip_slash (path_str base_name parts)
           /\ data e = content
           /\ (executable_path parts -> mode (header e) = o755)
           /\ (~ executable_path parts -> mode (header e) = o644)
       end.

(** [p] names a directory of the source side. *)
Definition is_directory (fs : gmap string fsobj) (p : string) : Prop :=
  exists st children, fs !! p = Some (Node (Dir st children)).

(** The number of files and directories of a tree, its root included. *)
Fixpoint count_nodes (n : node) : nat :=
  match n with
  | File _ _ => 1
  | Dir _ children => S (list_sum (map (fun c => count_nodes (snd c)) children))
  end.

Section Plan.

Variables getpwuid getgrgid : Z -> option string.

(** What the builder hands to [addfile] for the node [n] found at
    the relative path [parts]: lines 31-33 for a directory, lines
    39-56 for a file. *)
Definition item_for (base_name : string) (parts : list string) (n : node)
  : TarInfo * list byte :=
  let tarinfo := gettarinfo getpwuid getgrgid n (path_str base_name parts) in
  match n with
  | Dir _ _ => (set_mode o755 tarinfo, [])
  | File _ content =>
      (set_mode (if is_executable parts then o755 else o644) tarinfo, content)
  end.

(** The items of one step of the walk: the sub-directories, then the
    other entries. *)
Definition step_items (base_name : string)
           (step : list string * list (string * node) * list (string * node))
  : list (TarInfo * list byte) :=
  let '(root, dirs, files) := step in
  map (fun c => item_for base_name (root ++ [fst c]) (snd c)) (dirs ++ files).

(** Everything a build writes when nothing fails, in order;
    [build_write_all] shows [build] is the straight run of it. *)
Definition plan (base_name : string) (source : node)
  : list (TarInfo * list byte) :=
  item_for base_name [] source
  :: flat_map (step_items base_name) (os_walk [] source).

End Plan.

(** The entry [e] is the one the builder owes the node [n] found at
    [parts]: its type, name under the base, mode by the rule, owner and
    time from [lstat], and for a file its size and bytes. *)
Definition describes (base_name : string) (parts : list string) (n : node)
           (e : entry) : Prop :=
  uid (header e) = st_uid (stat_of n)
  /\ gid (header e) = st_gid (stat_of n)
  /\ mtime (header e) = st_mtime (stat_of n)
  /\ match n with
     | Dir _ _ =>
         type (header e) = DIRTYPE
         /\ name (header e)
            = with_slash (PyStr.lstrip_slash (path_str base_name parts))
         /\ mode (header e) = o755
         /\ size (header e) = 0
         /\ data e = []
     | File _ content =>
         type (header e) = REGTYPE
         /\ name (header e) = PyStr.lstrip_slash (path_str base_name parts)
         /\ mode (header e) = (if is_executable parts then o755 else o644)
         /\ size (header e) = Z.of_nat (List.length content)
         /\ data e = content
     end.


(** *** A sample tree *)

Definition st0 (m : Z) : stat_result := mkStat m 1000 1000 1700000000.

Definition hello : list byte := ["h"%byte; "i"%byte].

Definition go_tree : node :=
  Dir (st0 16832)
    [ ("VERSION", File (st0 33152) hello);
      ("bin", Dir (st0 16832) [("go", File (st0 33188) hello)]);
      ("pkg", Dir (st0 16877)
                [("tool", Dir (st0 16877)
                            [("linux_amd64", Dir (st0 16877)
                                               [("compile", File (st0 33188) hello)]);
                             ("README", File (st0 33261) hello)])]);
      ("tools", File (st0 33188) hello);
      ("src", Dir (st0 16877) [("bin", Dir (st0 16877) [("x.go", File (st0 33261) hello)])]) ].

Definition no_names : Z -> option string := fun _ => None.

End CreateTar.
(** * Properties *)

(** ** Python strings *)

Module PyStrFacts.
Import PyStr.

Lemma append_String (c : ascii) (p r : string) :
  (String c p ++ r)%string = String c (p ++ r).
Proof. reflexivity. Qed.

Lemma startswith_spec (s p : string) :
  startswith s p = true <-> exists r, s = (p ++ r)%string.
Proof.
  unfold startswith. revert s.
  induction p as [|c p IH]; intros s; simpl.
  - destruct s; split; eauto.
  - destruct s as [|d s]; simpl.
    + split; [discriminate | intros [r Hr]; discriminate].
    + destruct (Ascii.ascii_dec c d) as [->|Hne].
      * rewrite IH. split; intros [r Hr]; exists r; rewrite append_String in *; congruence.
      * split; [discriminate | intros [r Hr]; rewrite append_String in Hr; congruence].
Qed.

Lemma slice_from_app (p r : string) :
  slice_from (String.length p) (p ++ r) = r.
Proof. induction p; [reflexivity | rewrite append_String; simpl; auto]. Qed.

Lemma length_append (p r : string) :
  String.length (p ++ r) = (String.length p + String.length r)%nat.
Proof.
  induction p as [|c p IH]; [reflexivity|].
  rewrite append_String. simpl. rewrite IH. reflexivity.
Qed.

Lemma app_longer (p r : string) : p <> EmptyString -> (p ++ r)%string <> r.
Proof.
  intros Hp Heq. apply (f_equal String.length) in Heq.
  rewrite length_append in Heq. destruct p; [congruence | simpl in Heq; lia].
Qed.

Lemma endswith_slash_snoc (s : string) : endswith_slash (s ++ "/") = true.
Proof.
  induction s as [|c s IH]; [reflexivity|].
  rewrite append_String. simpl.
  destruct (s ++ "/")%string eqn:E; auto.
  destruct s; discriminate.
Qed.

Lemma rstrip_slash_snoc (s : string) : rstrip_slash (s ++ "/") = rstrip_slash s.
Proof.
  induction s as [|c s IH]; [reflexivity|].
  rewrite append_String. simpl. rewrite IH. reflexivity.
Qed.

Lemma rstrip_slash_id (s : string) : endswith_slash s = false -> rstrip_slash s = s.
Proof.
  induction s as [|c s IH]; simpl; auto.
  destruct s as [|d s].
  - simpl. intros ->. reflexivity.
  - intros H. rewrite (IH H). reflexivity.
Qed.

Lemma endswith_rstrip_slash (s : string) : endswith_slash (rstrip_slash s) = false.
Proof.
  induction s as [|c s IH]; simpl; auto.
  destruct (rstrip_slash s) as [|d r] eqn:E.
  - destruct (Ascii.eqb c "/") eqn:Ec; simpl; auto.
  - simpl in *. exact IH.
Qed.

End PyStrFacts.

(** ** Reading and writing archives *)

Module TarfileFacts.
Import Tarfile.

Lemma isreg_not_isdir (t : TarInfo) : isreg t = true -> isdir t = false.
Proof.
  unfold isreg, isdir.
  destruct (type t); vm_compute; congruence.
Qed.

Lemma land_o7777_idem (m : Z) : Z.land (Z.land m o7777) o7777 = Z.land m o7777.
Proof. rewrite <- Z.land_assoc. reflexivity. Qed.

(** With no fault pending and nothing to copy, [addfile] appends. *)
Lemma addfile_size0 (m : TarInfo) (f : option (list byte)) ms fo :
  size m = 0 ->
  addfile m f (mkTarFile ms fo None)
  = (Ok tt, mkTarFile (ms ++ [m]) (fo ++ [mkEntry (get_info m) []]) None).
Proof.
  intros Hsz. unfold addfile, bind, tick, emit, copyfileobj. simpl.
  destruct f; [rewrite Hsz|]; reflexivity.
Qed.

(** What the reader returns is never a V7 regular file with a
    directory name. *)
Lemma frombuf_not_v7_dir (t : TarInfo) :
  Byte.eqb (type (frombuf t)) AREGTYPE && PyStr.endswith_slash (name (frombuf t)) = false.
Proof.
  unfold frombuf.
  destruct (Byte.eqb (type t) AREGTYPE && PyStr.endswith_slash (name t)) eqn:E.
  - reflexivity.
  - destruct (isdir t) eqn:D; [|exact E].
    simpl. rewrite PyStrFacts.endswith_rstrip_slash. apply andb_false_r.
Qed.

Lemma frombuf_dir_name (t : TarInfo) :
  isdir (frombuf t) = true -> PyStr.endswith_slash (name (frombuf t)) = false.
Proof.
  unfold frombuf.
  destruct (Byte.eqb (type t) AREGTYPE && PyStr.endswith_slash (name t)) eqn:E.
  - intros _. simpl. apply PyStrFacts.endswith_rstrip_slash.
  - destruct (isdir t) eqn:D; [|congruence].
    intros _. simpl. apply PyStrFacts.endswith_rstrip_slash.
Qed.

Lemma frombuf_plain (t : TarInfo) :
  Byte.eqb (type t) AREGTYPE && PyStr.endswith_slash (name t) = false ->
  isdir t = false -> frombuf t = t.
Proof. intros Hv7 Hd. unfold frombuf. rewrite Hv7, Hd. reflexivity. Qed.

Lemma frombuf_dir (t : TarInfo) :
  isdir t = true -> frombuf t = set_name (PyStr.rstrip_slash (name t)) t.
Proof.
  intros Hd. unfold frombuf.
  replace (Byte.eqb (type t) AREGTYPE) with false.
  - cbn [andb]. rewrite Hd. reflexivity.
  - unfold isdir in Hd. apply Byte.byte_dec_bl in Hd. rewrite Hd. reflexivity.
Qed.

Lemma type_get_info (t : TarInfo) : type (get_info t) = type t.
Proof. reflexivity. Qed.

Lemma isdir_get_info (t : TarInfo) : isdir (get_info t) = isdir t.
Proof. reflexivity. Qed.

Lemma name_get_info_dir (t : TarInfo) :
  isdir t = true -> PyStr.endswith_slash (name t) = false ->
  name (get_info t) = (name t ++ "/")%string.
Proof.
  intros Hd He. unfold get_info. unfold isdir in Hd. rewrite Hd, He. reflexivity.
Qed.

Lemma name_get_info_other (t : TarInfo) :
  isdir t = false -> name (get_info t) = name t.
Proof.
  intros Hd. unfold get_info. unfold isdir in Hd. rewrite Hd. reflexivity.
Qed.

Lemma mode_get_info (t : TarInfo) : mode (get_info t) = Z.land (mode t) o7777.
Proof. reflexivity. Qed.

(** Reading back a header written for a member the reader produced:
    name and type are the member's, the mode is the one written. *)
Lemma reread (w u : TarInfo) :
  type w = type u -> name w = name u ->
  Byte.eqb (type u) AREGTYPE && PyStr.endswith_slash (name u) = false ->
  (isdir u = true -> PyStr.endswith_slash (name u) = false) ->
  name (frombuf (get_info w)) = name u
  /\ type (frombuf (get_info w)) = type u
  /\ mode (frombuf (get_info w)) = Z.land (mode w) o7777.
Proof.
  intros Ht Hn Hv7 Hdir.
  assert (Hwd : isdir w = isdir u) by (unfold isdir; rewrite Ht; reflexivity).
  destruct (isdir u) eqn:Hd.
  - rewrite frombuf_dir by (rewrite isdir_get_info; exact Hwd).
    cbn [name type mode set_name].
    rewrite name_get_info_dir, type_get_info, mode_get_info, Hn
      by (rewrite ?Hn; auto).
    rewrite PyStrFacts.rstrip_slash_snoc, PyStrFacts.rstrip_slash_id by auto.
    auto.
  - rewrite frombuf_plain.
    + rewrite name_get_info_other, type_get_info, mode_get_info by exact Hwd. auto.
    + rewrite type_get_info, name_get_info_other, Ht, Hn by exact Hwd. exact Hv7.
    + rewrite isdir_get_info. exact Hwd.
Qed.

End TarfileFacts.

(** ** The fixer *)

Module FixTarExecsFacts.
Import Tarfile FixTarExecs TarfileFacts.

Lemma normalize_stripped (name s : string) :
  stripped name s -> normalize name = s.
Proof.
  unfold stripped, normalize.
  intros [[r [-> ->]] | [Hno ->]].
  - replace (PyStr.startswith ("./" ++ r) "./") with true.
    + apply (PyStrFacts.slice_from_app "./" r).
    + symmetry. apply PyStrFacts.startswith_spec. eauto.
  - destruct (PyStr.startswith name "./") eqn:E; [|reflexivity].
    apply PyStrFacts.startswith_spec in E. contradiction.
Qed.

Lemma stripped_total (name : string) : stripped name (normalize name).
Proof.
  unfold stripped, normalize.
  destruct (PyStr.startswith name "./") eqn:E.
  - apply PyStrFacts.startswith_spec in E as [r ->]. left. exists r.
    split; [reflexivity|]. apply (PyStrFacts.slice_from_app "./" r).
  - right. split; [|reflexivity].
    intros H. apply PyStrFacts.startswith_spec in H. congruence.
Qed.

Lemma toolchain_name_spec (s : string) :
  PyStr.startswith s "go/bin/" || PyStr.startswith s "go/pkg/tool/" = true
  <-> toolchain_name s.
Proof.
  unfold toolchain_name, starts_with.
  rewrite orb_true_iff, !PyStrFacts.startswith_spec. reflexivity.
Qed.

Section Fixer.

Variable link_fileobj : list entry -> TarInfo -> result (option (list byte)).

Local Abbreviation fix_member := (fix_member link_fileobj).
Local Abbreviation rewrite_archive := (rewrite_archive link_fileobj).
Local Abbreviation fix_tar := (fix_tar link_fileobj).
Local Abbreviation fixed := (fixed link_fileobj).
Local Abbreviation descriptors := (descriptors link_fileobj).

Lemma extractfile_reg (src : list entry) (member : entry) :
  isreg (header member) = true ->
  extractfile link_fileobj src member = Ok (Some (data member)).
Proof. intros Hr. unfold extractfile. rewrite Hr. reflexivity. Qed.

(** One pass of the loop body with no fault pending. *)
Lemma fix_member_run (src : list entry) (member : entry) ms fo :
  fix_member src member (mkTarFile ms fo None)
  = (Ok tt, mkTarFile (ms ++ [rebuilt (header member)])
                      (fo ++ [mkEntry (get_info (rebuilt (header member))) []])
                      None).
Proof.
  unfold fix_member, rebuilt, new_mode. cbv zeta.
  destruct (isdir (header member)) eqn:Hd.
  - rewrite (addfile_size0 _ _ ms fo) by reflexivity. reflexivity.
  - destruct (isreg (header member)) eqn:Hr.
    + rewrite (extractfile_reg src member Hr).
      destruct (PyStr.startswith _ "go/bin/" || PyStr.startswith _ "go/pkg/tool/");
        rewrite (addfile_size0 _ _ ms fo) by reflexivity; reflexivity.
    + destruct (extractfile link_fileobj src member) as [f|];
        rewrite (addfile_size0 _ _ ms fo) by reflexivity; reflexivity.
Qed.

Lemma for_each_fix_member_run (src l : list entry) ms fo :
  for_each l (fix_member src) (mkTarFile ms fo None)
  = (Ok tt, mkTarFile (ms ++ map (fun e => rebuilt (header e)) l)
                      (fo ++ map (fun e => mkEntry (get_info (rebuilt (header e))) []) l)
                      None).
Proof.
  revert ms fo. induction l as [|e l IH]; intros ms fo; simpl.
  - rewrite !app_nil_r. reflexivity.
  - unfold bind. rewrite fix_member_run, IH, <- !app_assoc. reflexivity.
Qed.

Lemma rewrite_archive_run (a : list entry) :
  rewrite_archive a (mkTarFile [] [] None)
  = (Ok tt, mkTarFile (map (fun e => rebuilt (header e)) (getmembers a))
                      (map (fun e => mkEntry (get_info (rebuilt (header e))) [])
                           (getmembers a))
                      None).
Proof.
  unfold rewrite_archive, bind, tick. simpl.
  apply for_each_fix_member_run.
Qed.

Lemma fixed_eq (a : list entry) :
  fixed a = map (fun e => mkEntry (get_info (rebuilt (header e))) []) (getmembers a).
Proof. unfold fixed. rewrite rewrite_archive_run. reflexivity. Qed.

Lemma descriptors_eq (a : list entry) :
  descriptors a = map (fun e => rebuilt (header e)) (getmembers a).
Proof. unfold descriptors. rewrite rewrite_archive_run. reflexivity. Qed.

(** Lifting a property of each rewritten member to the archives. *)
Lemma fixed_Forall2 (P : entry -> entry -> Prop) (a : list entry) :
  (forall e, P e (mkEntry (get_info (rebuilt (header e))) [])) ->
  Forall2 P (getmembers a) (fixed a).
Proof.
  intros HP. rewrite fixed_eq.
  induction (getmembers a) as [|e l IH]; simpl; constructor; auto.
Qed.

Lemma descriptors_Forall2 (P : entry -> TarInfo -> Prop) (a : list entry) :
  (forall e, P e (rebuilt (header e))) ->
  Forall2 P (getmembers a) (descriptors a).
Proof.
  intros HP. rewrite descriptors_eq.
  induction (getmembers a) as [|e l IH]; simpl; constructor; auto.
Qed.

(** Reading back what the fixer wrote for a member. *)
Lemma reread_rebuilt (t : TarInfo) :
  name (frombuf (get_info (rebuilt (frombuf t)))) = name (frombuf t)
  /\ type (frombuf (get_info (rebuilt (frombuf t)))) = type (frombuf t)
  /\ mode (frombuf (get_info (rebuilt (frombuf t))))
     = Z.land (new_mode (frombuf t)) o7777.
Proof.
  apply reread; try reflexivity.
  - apply frombuf_not_v7_dir.
  - apply frombuf_dir_name.
Qed.

Lemma stored_mode (t : TarInfo) :
  mode (get_info (rebuilt t)) = Z.land (new_mode t) o7777.
Proof. reflexivity. Qed.

(** C3: directories are written with mode 0755; a regular file is
    written with mode 0755 when its name, a leading "./" stripped,
    starts with "go/bin/" or "go/pkg/tool/", and with mode 0644
    otherwise. *)
Theorem fixer_mode_by_kind_and_name (a : list entry) :
  Forall2 (fun e out =>
             (isdir (header e) = true -> mode (header out) = o755)
             /\ (isreg (header e) = true ->
                 forall s, stripped (name (header e)) s ->
                   (toolchain_name s -> mode (header out) = o755)
                   /\ (~ toolchain_name s -> mode (header out) = o644)))
          (getmembers a) (fixed a).
Proof.
  apply fixed_Forall2. intros e. cbn [header]. rewrite stored_mode.
  unfold new_mode. split.
  - intros ->. reflexivity.
  - intros Hr s Hs. rewrite (isreg_not_isdir _ Hr), Hr.
    rewrite (normalize_stripped _ _ Hs).
    destruct (PyStr.startswith s "go/bin/" || PyStr.startswith s "go/pkg/tool/") eqn:E.
    + split; [reflexivity|]. intros Hn. apply toolchain_name_spec in E. contradiction.
    + split; [|reflexivity]. intros Hy. apply toolchain_name_spec in Hy. congruence.
Qed.

(** C4: every entry is written under the member's own name; the name
    with its leading "./" stripped is used to classify the entry and
    is not the name written. *)
Theorem fixer_writes_original_name (a : list entry) :
  Forall2 (fun e m =>
             name m = name (header e)
             /\ (forall r, name (header e) = ("./" ++ r)%string ->
                           name m <> normalize (name (header e))))
          (getmembers a) (descriptors a)
  /\ map (fun e => name (header e)) (getmembers (fixed a))
     = map (fun e => name (header e)) (getmembers a).
Proof.
  split.
  - apply descriptors_Forall2. intros e. cbn [rebuilt name]. split; [reflexivity|].
    intros r Hr. rewrite Hr.
    rewrite (normalize_stripped ("./" ++ r) r) by (left; eauto).
    apply PyStrFacts.app_longer. discriminate.
  - rewrite fixed_eq. unfold getmembers. rewrite !map_map. cbn [header data].
    apply map_ext. intros e. apply reread_rebuilt.
Qed.

(** C6: uid, gid, uname, gname and mtime of every entry are those of
    the member it was made from. *)
Theorem fixer_copies_owner_and_mtime (a : list entry) :
  Forall2 (fun e out =>
             uid (header out) = uid (header e)
             /\ gid (header out) = gid (header e)
             /\ uname (header out) = uname (header e)
             /\ gname (header out) = gname (header e)
             /\ mtime (header out) = mtime (header e))
          (getmembers a) (fixed a).
Proof. apply fixed_Forall2. intros e. cbn. auto. Qed.

(** C10: an entry that is neither a regular file nor a directory is
    written with an empty link target, size 0 and no data. *)
Theorem fixer_drops_linkname_and_size (a : list entry) :
  Forall2 (fun e out =>
             isreg (header e) = false -> isdir (header e) = false ->
             linkname (header out) = ""
             /\ size (header out) = 0
             /\ data out = [])
          (getmembers a) (fixed a).
Proof. apply fixed_Forall2. intros e _ _. cbn. auto. Qed.

(** Whatever the member, the entry written for it has size 0 and no
    data: [m.size] is never assigned. *)
Lemma fixer_writes_no_data (a : list entry) :
  Forall (fun out => size (header out) = 0 /\ data out = []) (fixed a).
Proof.
  rewrite fixed_eq. apply Forall_map, Forall_forall. intros e _. cbn. auto.
Qed.

(** The mode handed to [addfile] for an entry that is neither a file
    nor a directory: the member's mode, or 0644 when that is zero. *)
Lemma fixer_other_mode (a : list entry) :
  Forall2 (fun e m =>
             isreg (header e) = false -> isdir (header e) = false ->
             mode m = if mode (header e) =? 0 then o644 else mode (header e))
          (getmembers a) (descriptors a).
Proof.
  apply descriptors_Forall2. intros e Hr Hd. cbn [rebuilt mode].
  unfold new_mode. rewrite Hd, Hr. reflexivity.
Qed.

(** The exit codes of the script. *)
Lemma fixer_exit_codes (argv : list string) (tmp_path : string)
      (faults : option nat) (fs : gmap string file) :
  (List.length argv <> 2%nat -> main link_fileobj argv tmp_path faults fs = (2, fs))
  /\ (forall prog tarfile_path,
        argv = [prog; tarfile_path] -> fs !! tarfile_path = None ->
        main link_fileobj argv tmp_path faults fs = (2, fs))
  /\ (forall prog tarfile_path,
        argv = [prog; tarfile_path] -> is_Some (fs !! tarfile_path) ->
        fst (main link_fileobj argv tmp_path faults fs)
        = match fst (fix_tar tarfile_path tmp_path faults fs) with
          | Ok _ => 0
          | Raised => 1
          end).
Proof.
  repeat split.
  - intros Hlen. unfold main.
    destruct (Nat.eqb_spec (List.length argv) 2); [contradiction|reflexivity].
  - intros prog tarfile_path -> Hno. unfold main.
    cbn [List.length Nat.eqb negb nth]. rewrite Hno. reflexivity.
  - intros prog tarfile_path -> [f Hf]. unfold main.
    cbn [List.length Nat.eqb negb nth]. rewrite Hf.
    destruct (fix_tar tarfile_path tmp_path faults fs) as [[[]|] fs']; reflexivity.
Qed.

(** The per-member step of a second run: the mode is kept exactly
    for settled members. *)
Lemma rerun_mode (t : TarInfo) :
  Z.land (new_mode (frombuf (get_info (rebuilt (frombuf t))))) o7777
  = Z.land (new_mode (frombuf t)) o7777
  <-> settled (frombuf t).
Proof.
  destruct (reread_rebuilt t) as (Hn & Ht & Hm).
  set (u := frombuf t) in *. set (u' := frombuf (get_info (rebuilt u))) in *.
  unfold settled, new_mode at 1.
  replace (isdir u') with (isdir u) by (unfold isdir; rewrite Ht; reflexivity).
  replace (isreg u') with (isreg u) by (unfold isreg; rewrite Ht; reflexivity).
  rewrite Hn, Hm. unfold new_mode.
  destruct (isdir u) eqn:Hd; [split; [discriminate | reflexivity]|].
  destruct (isreg u) eqn:Hr; [split; [discriminate | reflexivity]|].
  unfold PyStr.or_else.
  destruct (Z.eqb_spec (mode u) 0) as [H0|H0].
  - split; [contradiction | reflexivity].
  - destruct (Z.eqb_spec (Z.land (mode u) o7777) 0) as [H1|H1].
    + rewrite H1. split; [discriminate|]. intros Hs. elim (Hs eq_refl eq_refl H0 eq_refl).
    + split; [auto|]. intros _. apply land_o7777_idem.
Qed.

Lemma map_eq_Forall {A B} (f g : A -> B) (l : list A) :
  map f l = map g l <-> Forall (fun x => f x = g x) l.
Proof.
  induction l as [|x l IH]; cbn [map].
  - split; [constructor | reflexivity].
  - split.
    + intros H. injection H as Hx Hl. constructor; [exact Hx | apply IH, Hl].
    + intros H. apply Forall_cons_1 in H as [Hx Hl]. f_equal; [exact Hx | apply IH, Hl].
Qed.

Lemma mode_by_name_and_type (u1 u2 : TarInfo) :
  name u1 = name u2 -> type u1 = type u2 ->
  isdir u1 || isreg u1 = true ->
  new_mode u1 = new_mode u2.
Proof.
  intros Hn Ht Hk. unfold new_mode.
  replace (isdir u2) with (isdir u1) by (unfold isdir; rewrite Ht; reflexivity).
  replace (isreg u2) with (isreg u1) by (unfold isreg; rewrite Ht; reflexivity).
  rewrite Hn.
  destruct (isdir u1); [reflexivity|].
  destruct (isreg u1); [reflexivity|discriminate].
Qed.

(** C7, as amended: a second run gives every entry the mode the
    first run gave it exactly when no entry that is neither a regular
    file nor a directory has a non-zero mode whose twelve permission
    bits are all zero.  The mode of a directory or regular file
    depends on its name and type only; the mode of any other entry is
    taken from its prior mode, 0644 standing in for zero. *)
Theorem fixer_rerun_keeps_modes (a : list entry) :
  (modes (fixed (fixed a)) = modes (fixed a)
   <-> Forall (fun e => settled (header e)) (getmembers a))
  /\ (forall e1 e2 : entry,
        name (frombuf (header e1)) = name (frombuf (header e2)) ->
        type (frombuf (header e1)) = type (frombuf (header e2)) ->
        isdir (frombuf (header e1)) || isreg (frombuf (header e1)) = true ->
        modes (fixed [e1]) = modes (fixed [e2]))
  /\ Forall2 (fun e out =>
                isdir (header e) = false -> isreg (header e) = false ->
                mode (header out)
                = Z.land (if mode (header e) =? 0 then o644 else mode (header e)) o7777)
             (getmembers a) (fixed a).
Proof.
  split; [|split].
  - unfold modes. rewrite (fixed_eq (fixed a)), (fixed_eq a).
    unfold getmembers. rewrite !map_map. cbn [header data].
    rewrite map_eq_Forall, Forall_map.
    apply Forall_iff. intros e. cbn beta. apply rerun_mode.
  - intros e1 e2 Hn Ht Hk. unfold modes. rewrite !fixed_eq. cbn.
    rewrite (mode_by_name_and_type _ _ Hn Ht Hk). reflexivity.
  - apply fixed_Forall2. intros e Hd Hr. cbn [header]. rewrite stored_mode.
    unfold new_mode. rewrite Hd, Hr. reflexivity.
Qed.

(** A fault-free run replaces the archive by its rewrite and leaves
    nothing else behind. *)
Lemma fix_tar_ok (tar_path tmp_path : string) (a : list entry)
      (fs : gmap string file) :
  fs !! tar_path = Some (TarGz a) -> fs !! tmp_path = None ->
  fix_tar tar_path tmp_path None fs
  = (Ok tt, <[tar_path := TarGz (fixed a)]> fs).
Proof.
  intros Ha Ht.
  assert (Hne : tmp_path <> tar_path) by congruence.
  unfold fix_tar, fixed.
  rewrite lookup_insert_ne, Ha by exact Hne.
  destruct (rewrite_archive a (mkTarFile [] [] None)) as [r dst] eqn:E.
  rewrite rewrite_archive_run in E. injection E as <- <-.
  cbn [fileobj snd].
  rewrite lookup_insert_eq, insert_insert_eq, delete_insert_eq, delete_id by exact Ht.
  rewrite lookup_insert_ne, Ht by congruence.
  reflexivity.
Qed.

(** Two fault-free runs in a row leave the rewrite of the rewrite. *)
Lemma fix_tar_twice (tar_path tmp1 tmp2 : string) (a : list entry)
      (fs : gmap string file) :
  fs !! tar_path = Some (TarGz a) -> fs !! tmp1 = None -> fs !! tmp2 = None ->
  fix_tar tar_path tmp2 None (snd (fix_tar tar_path tmp1 None fs))
  = (Ok tt, <[tar_path := TarGz (fixed (fixed a))]> fs).
Proof.
  intros Ha H1 H2.
  rewrite (fix_tar_ok tar_path tmp1 a fs Ha H1). cbn [snd].
  rewrite (fix_tar_ok tar_path tmp2 (fixed a)).
  - rewrite insert_insert_eq. reflexivity.
  - apply lookup_insert_eq.
  - rewrite lookup_insert_ne by congruence. exact H2.
Qed.

(** C8: whatever I/O fault interrupts the rewrite, the file system
    ends as it began: the archive is untouched and the temporary
    file is gone.  The temporary file never survives, and the archive
    changes only to the output of a rewrite that ran to its end. *)
Theorem fix_tar_failure_is_clean (tar_path tmp_path : string)
        (faults : option nat) (fs : gmap string file) :
  fs !! tmp_path = None ->
  (fst (fix_tar tar_path tmp_path faults fs) = Raised ->
   snd (fix_tar tar_path tmp_path faults fs) = fs)
  /\ snd (fix_tar tar_path tmp_path faults fs) !! tmp_path = None
  /\ (snd (fix_tar tar_path tmp_path faults fs) !! tar_path <> fs !! tar_path ->
      exists a dst,
        fs !! tar_path = Some (TarGz a)
        /\ rewrite_archive a (mkTarFile [] [] faults) = (Ok tt, dst)
        /\ snd (fix_tar tar_path tmp_path faults fs) !! tar_path
           = Some (TarGz (fileobj dst))).
Proof.
  intros Ht. unfold fix_tar.
  destruct (<[tmp_path:=Blank]> fs !! tar_path) as [[|a]|] eqn:Ha.
  - rewrite lookup_insert_eq, delete_insert_eq, delete_id by exact Ht.
    cbn [fst snd]. repeat split; auto. congruence.
  - assert (Hne : tmp_path <> tar_path).
    { intros ->. rewrite lookup_insert_eq in Ha. discriminate. }
    rewrite lookup_insert_ne in Ha by exact Hne.
    destruct (rewrite_archive a (mkTarFile [] [] faults)) as [[[]|] dst] eqn:E.
    + rewrite lookup_insert_eq, insert_insert_eq, delete_insert_eq, delete_id by exact Ht.
      rewrite lookup_insert_ne, Ht by congruence.
      cbn [fst snd]. split; [discriminate|]. split.
      * rewrite lookup_insert_ne by congruence. exact Ht.
      * intros _. exists a, dst. rewrite lookup_insert_eq. auto.
    + rewrite lookup_insert_eq, insert_insert_eq, delete_insert_eq, delete_id by exact Ht.
      cbn [fst snd]. repeat split; auto. congruence.
  - rewrite lookup_insert_eq, delete_insert_eq, delete_id by exact Ht.
    cbn [fst snd]. repeat split; auto. congruence.
Qed.

End Fixer.

(** *** Concrete runs *)

(** The classification examples of the specification. *)
Example fixer_classification_examples :
  modes (fixed no_links
           [ sample "go/bin/tool1" REGTYPE 420 "" [];
             sample "go/pkg/tool/linux_amd64/compile" REGTYPE 420 "" [];
             sample "go/src/main.go" REGTYPE 493 "" [];
             sample "go/src/" DIRTYPE 448 "" [];
             sample "./go/bin/tool1" REGTYPE 420 "" [] ])
  = [o755; o755; o644; o755; o755].
Proof. reflexivity. Qed.

Example fixer_keeps_dot_slash :
  map (fun e => name (header e))
      (fixed no_links [sample "./go/bin/tool1" REGTYPE 420 "" []])
  = ["./go/bin/tool1"].
Proof. reflexivity. Qed.

(** C1, at the failing input: an archive holding the three-byte file
    [go/bin/go] is replaced by one whose [go/bin/go] has size 0 and no
    data, because [m.size] keeps the constructor's 0 and [addfile]
    copies [m.size] bytes. *)
Theorem fix_tar_empties_regular_file :
  fix_tar no_links "go.tar.gz" "/tmp/tmpq1.tar.gz" None
          {[ "go.tar.gz" := TarGz [sample "go/bin/go" REGTYPE 420 "" abc] ]}
  = (Ok tt,
     {[ "go.tar.gz" :=
          TarGz [mkEntry (mkTarInfo "go/bin/go" o755 1000 1000 0 1700000000
                                    REGTYPE "" "builder" "staff") []] ]}).
Proof.
  rewrite (fix_tar_ok no_links _ _ [sample "go/bin/go" REGTYPE 420 "" abc])
    by reflexivity.
  rewrite insert_singleton_eq. reflexivity.
Qed.

(** C5, at the failing input: a member of a type [tarfile] does not
    know (here GNU's ["D"]) carries three bytes of data; the entry
    written for it keeps the mode but has size 0 and no data. *)
Theorem fix_tar_empties_other_entry :
  fix_tar no_links "go.tar.gz" "/tmp/tmpq1.tar.gz" None
          {[ "go.tar.gz" := TarGz [sample "go/.listing" "D"%byte 448 "" abc] ]}
  = (Ok tt,
     {[ "go.tar.gz" :=
          TarGz [mkEntry (mkTarInfo "go/.listing" 448 1000 1000 0 1700000000
                                    "D"%byte "" "builder" "staff") []] ]}).
Proof.
  rewrite (fix_tar_ok no_links _ _ [sample "go/.listing" "D"%byte 448 "" abc])
    by reflexivity.
  rewrite insert_singleton_eq. reflexivity.
Qed.

(** C7 as the specification states it fails in both halves: a FIFO
    with mode 0o10000 is written with mode 0 by the first run and with
    mode 0644 by the second, and two symbolic links of the same name
    get different modes. *)
Lemma fixer_rerun_counterexample :
  ~ rerun_keeps_modes no_links /\ ~ mode_from_name_and_type no_links.
Proof.
  split.
  - intros H. specialize (H [sample "go/pipe" FIFOTYPE 4096 "" []]).
    vm_compute in H. discriminate.
  - intros [f H].
    pose proof (H [sample "go/bin/gofmt" SYMTYPE 511 "go" []]) as H1.
    pose proof (H [sample "go/bin/gofmt" SYMTYPE 448 "go" []]) as H2.
    vm_compute in H1, H2.
    apply Forall2_cons_1 in H1 as [H1 _]. apply Forall2_cons_1 in H2 as [H2 _].
    congruence.
Qed.

(** The sample archive is settled, and a second run keeps its modes. *)
Lemma fixer_rerun_keeps_modes_witness :
  Forall (fun e => settled (header e)) (getmembers go_archive)
  /\ modes (fixed no_links (fixed no_links go_archive))
     = modes (fixed no_links go_archive).
Proof.
  assert (Hs : Forall (fun e => settled (header e)) (getmembers go_archive)).
  { repeat constructor; intros ? ? ?; vm_compute; discriminate. }
  split; [exact Hs|].
  exact (proj2 (proj1 (fixer_rerun_keeps_modes no_links go_archive)) Hs).
Defined.

(** A run whose third I/O operation fails: two entries had reached the
    temporary file, and the disk ends as it began. *)
Lemma fix_tar_failure_is_clean_witness :
  let disk : gmap string file := {[ "go.tar.gz" := TarGz go_archive ]} in
  disk !! "/tmp/tmpq1.tar.gz" = None
  /\ fst (fix_tar no_links "go.tar.gz" "/tmp/tmpq1.tar.gz" (Some 2%nat) disk) = Raised
  /\ snd (fix_tar no_links "go.tar.gz" "/tmp/tmpq1.tar.gz" (Some 2%nat) disk) = disk.
Proof.
  intros disk.
  assert (Hfresh : disk !! "/tmp/tmpq1.tar.gz" = None) by reflexivity.
  assert (Hraise : fst (fix_tar no_links "go.tar.gz" "/tmp/tmpq1.tar.gz" (Some 2%nat) disk)
                   = Raised) by (vm_compute; reflexivity).
  split; [exact Hfresh|]. split; [exact Hraise|].
  exact (proj1 (fix_tar_failure_is_clean no_links "go.tar.gz" "/tmp/tmpq1.tar.gz"
                                         (Some 2%nat) disk Hfresh) Hraise).
Defined.

End FixTarExecsFacts.

(** ** The builder *)

Module CreateTarFacts.
Import Tarfile CreateTar TarfileFacts.

Lemma is_executable_spec (parts : list string) :
  is_executable parts = true <-> executable_path parts.
Proof.
  unfold is_executable, executable_path.
  destruct parts as [|p0 [|p1 [|p2 rest]]];
    cbn [List.length nth Nat.leb andb lookup list_lookup];
    repeat match goal with
           | |- context [String.eqb ?a ?b] =>
               destruct (String.eqb_spec a b); cbn [andb]
           end;
    simpl; intuition (try discriminate; try congruence; try lia).
Qed.

Lemma copyfileobj_all (content : list byte) :
  copyfileobj content (Z.of_nat (List.length content)) = Ok content.
Proof.
  unfold copyfileobj.
  destruct content as [|b content]; [reflexivity|].
  replace (Z.of_nat (List.length (b :: content)) =? 0) with false
    by (symmetry; apply Z.eqb_neq; simpl List.length; lia).
  rewrite Z.ltb_irrefl, Nat2Z.id, firstn_all. reflexivity.
Qed.

(** *** Invariants of writing *)

Section Invariant.

Context {P : entry -> Prop}.

Lemma tick_keeps (s : TarFile) :
  all_written P s -> all_written P (snd (tick s)).
Proof. unfold tick. destruct (budget s) as [[|k]|]; auto. Qed.

Lemma addfile_keeps (t : TarInfo) (f : option (list byte)) (s : TarFile) :
  (forall d, match f with
             | None => d = []
             | Some src => copyfileobj src (size t) = Ok d
             end -> P (mkEntry (get_info t) d)) ->
  all_written P s -> all_written P (snd (addfile t f s)).
Proof.
  intros HP Hs. unfold addfile, bind.
  pose proof (tick_keeps s Hs) as Ht.
  destruct (tick s) as [[[]|] s1]; cbn [snd] in *; [|exact Ht].
  destruct f as [src|].
  - destruct (copyfileobj src (size t)) as [d|] eqn:E; [|exact Ht].
    unfold emit, all_written. cbn [snd fileobj].
    apply Forall_app. split; [exact Ht|]. constructor; auto.
  - unfold emit, all_written. cbn [snd fileobj].
    apply Forall_app. split; [exact Ht|]. constructor; auto.
Qed.

Lemma bind_keeps {A B} (c : io A) (k : A -> io B) (s : TarFile) :
  (all_written P s -> all_written P (snd (c s))) ->
  (forall a s', all_written P s' -> all_written P (snd (k a s'))) ->
  all_written P s -> all_written P (snd (bind c k s)).
Proof.
  intros Hc Hk Hs. unfold bind. specialize (Hc Hs).
  destruct (c s) as [[a|] s1]; cbn [snd] in *; auto.
Qed.

Lemma for_each_keeps {A} (xs : list A) (body : A -> io unit) :
  (forall x, In x xs -> forall s, all_written P s -> all_written P (snd (body x s))) ->
  forall s, all_written P s -> all_written P (snd (for_each xs body s)).
Proof.
  induction xs as [|x xs IH]; intros Hb s Hs; cbn [for_each].
  - exact Hs.
  - apply bind_keeps; auto.
    + intros _. apply Hb; [left; reflexivity | exact Hs].
    + intros _ s' Hs'. apply IH; auto. intros y Hy. apply Hb. right. exact Hy.
Qed.

End Invariant.

Lemma addfile_unfailing (t : TarInfo) (f : option (list byte)) :
  match f with
  | None => True
  | Some src => exists d, copyfileobj src (size t) = Ok d
  end -> unfailing (addfile t f).
Proof.
  intros Hf s Hs. unfold addfile, bind, tick. rewrite Hs.
  destruct f as [src|].
  - destruct Hf as [d ->]. cbn. eauto.
  - cbn. eauto.
Qed.

Lemma bind_unfailing {A B} (c : io A) (k : A -> io B) :
  unfailing c -> (forall a, unfailing (k a)) -> unfailing (bind c k).
Proof.
  intros Hc Hk s Hs. unfold bind.
  destruct (Hc s Hs) as [[a Ha] Hb].
  destruct (c s) as [r s1]; cbn [fst snd] in *. subst r.
  apply Hk. exact Hb.
Qed.

Lemma for_each_unfailing {A} (xs : list A) (body : A -> io unit) :
  (forall x, In x xs -> unfailing (body x)) -> unfailing (for_each xs body).
Proof.
  induction xs as [|x xs IH]; intros Hb; cbn [for_each].
  - intros s Hs. cbn. eauto.
  - apply bind_unfailing.
    + apply Hb. left. reflexivity.
    + intros _. apply IH. intros y Hy. apply Hb. right. exact Hy.
Qed.

(** *** The walk *)

Lemma node_nested_ind (Q : node -> Prop) :
  (forall st content, Q (File st content)) ->
  (forall st children, Forall (fun c => Q (snd c)) children -> Q (Dir st children)) ->
  forall n, Q n.
Proof.
  intros Hf Hd. fix IH 1. intros [st content | st children].
  - apply Hf.
  - apply Hd. induction children as [|c children IHc]; constructor.
    + apply IH.
    + exact IHc.
Qed.

Lemma os_walk_dir (root : list string) st children :
  os_walk root (Dir st children)
  = (root,
     List.filter (fun c => is_dir (snd c)) children,
     List.filter (fun c => negb (is_dir (snd c))) children)
      :: flat_map (fun c => os_walk (root ++ [fst c]) (snd c)) children.
Proof.
  cbn [os_walk]. f_equal.
  induction children as [|[dir_name c] children IH]; [reflexivity|].
  cbn [flat_map fst snd]. rewrite <- IH. reflexivity.
Qed.

Lemma at_path_snoc (top : node) root st children seg c :
  at_path top root (Dir st children) -> In (seg, c) children ->
  at_path top (root ++ [seg]) c.
Proof.
  intros Hp Hin. remember (Dir st children) as d eqn:Ed.
  induction Hp as [n | st' children' seg' c' parts n Hin' Hp IH]; subst.
  - cbn. eapply at_child; [exact Hin | apply at_here].
  - cbn. eapply at_child; [exact Hin' | apply IH; reflexivity].
Qed.

(** Every triple the walk yields describes a directory of the tree. *)
Lemma os_walk_sound (top : node) (n : node) :
  forall root, at_path top root n ->
  forall r dirs files, In (r, dirs, files) (os_walk root n) ->
  exists st children,
    at_path top r (Dir st children)
    /\ (forall d, In d dirs -> In d children /\ is_dir (snd d) = true)
    /\ (forall f, In f files -> In f children /\ is_dir (snd f) = false).
Proof.
  induction n as [st content | st children IH] using node_nested_ind;
    intros root Hroot r dirs files Hin.
  - destruct Hin.
  - rewrite os_walk_dir in Hin. destruct Hin as [Heq | Hin].
    + injection Heq as <- <- <-. exists st, children. split; [exact Hroot|].
      split; intros x Hx; apply filter_In in Hx as [Hx Hk]; split; auto.
      destruct (is_dir (snd x)); [discriminate | reflexivity].
    + apply in_flat_map in Hin as [[seg c] [Hc Hin]]. cbn [fst snd] in Hin.
      rewrite List.Forall_forall in IH.
      apply (IH (seg, c) Hc (root ++ [seg])%list); auto.
      eapply at_path_snoc; eauto.
Qed.

Lemma land_choice (b : bool) :
  Z.land (if b then o755 else o644) o7777 = if b then o755 else o644.
Proof. destruct b; reflexivity. Qed.

Section Builder.

Variables getpwuid getgrgid : Z -> option string.
Variable resolve : string -> string.

Local Abbreviation gettarinfo := (gettarinfo getpwuid getgrgid).
Local Abbreviation add_dir := (add_dir getpwuid getgrgid).
Local Abbreviation add_file := (add_file getpwuid getgrgid).
Local Abbreviation build := (build getpwuid getgrgid).
Local Abbreviation create_tar_with_permissions :=
  (create_tar_with_permissions getpwuid getgrgid resolve).
Local Abbreviation main := (main getpwuid getgrgid resolve).

Lemma dir_entry_ok (base_name : string) (source : node) parts st children :
  at_path source parts (Dir st children) ->
  written_ok base_name source
    (mkEntry (get_info (set_mode o755
                (gettarinfo (Dir st children) (path_str base_name parts)))) []).
Proof.
  intros Hp. exists parts, (Dir st children). split; [exact Hp|].
  cbn [header]. split; [reflexivity|]. split; [|reflexivity].
  unfold get_info, with_slash. cbn [type name set_mode CreateTar.gettarinfo is_dir set_name].
  destruct (PyStr.endswith_slash _); reflexivity.
Qed.

Lemma file_entry_ok (base_name : string) (source : node) parts st content :
  at_path source parts (File st content) ->
  written_ok base_name source
    (mkEntry (get_info (set_mode (if is_executable parts then o755 else o644)
                (gettarinfo (File st content) (path_str base_name parts))))
             content).
Proof.
  intros Hp. exists parts, (File st content). split; [exact Hp|].
  cbn [header data]. rewrite mode_get_info. cbn [mode set_mode].
  rewrite land_choice. repeat split.
  - intros He. apply is_executable_spec in He. rewrite He. reflexivity.
  - intros He. destruct (is_executable parts) eqn:E; [|reflexivity].
    apply is_executable_spec in E. contradiction.
Qed.

Lemma add_dir_keeps (base_name : string) (source : node) root st children d :
  at_path source root (Dir st children) ->
  In d children -> is_dir (snd d) = true ->
  forall s, all_written (written_ok base_name source) s ->
            all_written (written_ok base_name source) (snd (add_dir base_name root d s)).
Proof.
  intros Hp Hin Hk s Hs. destruct d as [seg c]. cbn [fst snd] in *.
  destruct c as [|st' children']; [discriminate|].
  unfold CreateTar.add_dir. cbn [fst snd].
  apply addfile_keeps; [|exact Hs]. intros d ->.
  apply dir_entry_ok. eapply at_path_snoc; eauto.
Qed.

Lemma add_file_keeps (base_name : string) (source : node) root st children f :
  at_path source root (Dir st children) ->
  In f children -> is_dir (snd f) = false ->
  forall s, all_written (written_ok base_name source) s ->
            all_written (written_ok base_name source) (snd (add_file base_name root f s)).
Proof.
  intros Hp Hin Hk s Hs. destruct f as [seg c]. cbn [fst snd] in *.
  destruct c as [st' content|]; [|discriminate].
  unfold CreateTar.add_file. cbn [fst snd].
  apply addfile_keeps; [|exact Hs]. intros d Hd.
  cbn [size set_mode CreateTar.gettarinfo] in Hd.
  rewrite copyfileobj_all in Hd. injection Hd as <-.
  apply file_entry_ok. eapply at_path_snoc; eauto.
Qed.

(** C2: every entry the builder writes, whether or not the run is cut
    short by a fault, stands for a node of the source tree; a
    directory's entry, the base entry included, has mode 0755 whatever
    the directory's own permissions; a file's entry has mode 0755
    exactly when its relative path is an executable path, and mode
    0644 otherwise. *)
Theorem builder_modes_follow_rule (base_name : string) st children
        (faults : option nat) :
  all_written (written_ok base_name (Dir st children))
              (snd (build base_name (Dir st children) (mkTarFile [] [] faults))).
Proof.
  set (source := Dir st children).
  unfold CreateTar.build. apply bind_keeps.
  - intros Hs. apply addfile_keeps; [|exact Hs]. intros d ->.
    apply (dir_entry_ok base_name source [] st children). apply at_here.
  - intros _ s Hs. apply for_each_keeps; [|exact Hs].
    intros [[root dirs] files] Hin s' Hs'.
    destruct (os_walk_sound source source [] (at_here source) _ _ _ Hin)
      as (st' & children' & Hp & Hdirs & Hfiles).
    apply bind_keeps; [| |exact Hs'].
    + intros Hs''. apply for_each_keeps; [|exact Hs''].
      intros d Hd. destruct (Hdirs d Hd). eapply add_dir_keeps; eauto.
    + intros _ s'' Hs''. apply for_each_keeps; [|exact Hs''].
      intros f Hf. destruct (Hfiles f Hf). eapply add_file_keeps; eauto.
  - constructor.
Qed.

Lemma build_unfailing (base_name : string) st children :
  unfailing (build base_name (Dir st children)).
Proof.
  set (source := Dir st children).
  unfold CreateTar.build. apply bind_unfailing.
  - apply addfile_unfailing. exact I.
  - intros _. apply for_each_unfailing. intros [[root dirs] files] Hin.
    destruct (os_walk_sound source source [] (at_here source) _ _ _ Hin)
      as (st' & children' & Hp & Hdirs & Hfiles).
    apply bind_unfailing.
    + apply for_each_unfailing. intros d _. apply addfile_unfailing. exact I.
    + intros _. apply for_each_unfailing. intros [seg c] Hf.
      destruct (Hfiles _ Hf) as [_ Hk]. cbn [snd] in Hk.
      destruct c as [st'' content|]; [|discriminate].
      unfold CreateTar.add_file. cbn [fst snd].
      apply addfile_unfailing. exists content.
      cbn [size set_mode CreateTar.gettarinfo]. apply copyfileobj_all.
Qed.

(** A run on a directory, with no fault and an output path that is
    not a directory, succeeds and leaves the whole archive. *)
Lemma builder_succeeds (source_dir output_tar base_name : string)
      st children (fs : gmap string fsobj) :
  fs !! resolve source_dir = Some (Node (Dir st children)) ->
  ~ is_directory fs output_tar ->
  create_tar_with_permissions source_dir output_tar base_name None fs
  = (true,
     <[output_tar :=
         Tar (fileobj (snd (build base_name (Dir st children)
                                  (mkTarFile [] [] None))))]> fs).
Proof.
  intros Hsrc Hout.
  unfold CreateTar.create_tar_with_permissions. rewrite Hsrc.
  pose proof (build_unfailing base_name st children (mkTarFile [] [] None) eq_refl)
    as [[[] Hok] _].
  destruct (build base_name (Dir st children) (mkTarFile [] [] None)) as [r tar] eqn:E.
  cbn [fst snd] in *. subst r.
  unfold tick. cbn [budget]. rewrite E, lookup_insert_eq.
  destruct (fs !! output_tar) as [[[|st' ch']|]|] eqn:Eo; try reflexivity.
  elim Hout. exists st', ch'. exact Eo.
Qed.

Lemma builder_refuses (source_dir output_tar base_name : string)
      (faults : option nat) (fs : gmap string fsobj) :
  ~ is_directory fs (resolve source_dir) ->
  create_tar_with_permissions source_dir output_tar base_name faults fs
  = (false, fs).
Proof.
  intros Hsrc. unfold CreateTar.create_tar_with_permissions.
  destruct (fs !! resolve source_dir) as [[[|st children]|]|] eqn:E; try reflexivity.
  elim Hsrc. exists st, children. exact E.
Qed.

(** C9: with a source path that is missing or not a directory the
    builder leaves the file system as it was and exits with code 1;
    with the wrong number of arguments it exits with code 2; when
    [create_tar_with_permissions] reports success it exits with code
    0, which it does for a directory source when no fault occurs. *)
Theorem builder_exit_codes (argv : list string) (faults : option nat)
        (fs : gmap string fsobj) :
  (List.length argv <> 3%nat -> main argv faults fs = (2, fs))
  /\ (forall prog source_dir output_tar,
        argv = [prog; source_dir; output_tar] ->
        ~ is_directory fs (resolve source_dir) ->
        main argv faults fs = (1, fs))
  /\ (forall prog source_dir output_tar fs',
        argv = [prog; source_dir; output_tar] ->
        create_tar_with_permissions source_dir output_tar "go" faults fs = (true, fs') ->
        main argv faults fs = (0, fs'))
  /\ (forall prog source_dir output_tar st children,
        argv = [prog; source_dir; output_tar] ->
        fs !! resolve source_dir = Some (Node (Dir st children)) ->
        ~ is_directory fs output_tar ->
        faults = None ->
        main argv faults fs
        = (0, <[output_tar :=
                  Tar (fileobj (snd (build "go" (Dir st children)
                                           (mkTarFile [] [] None))))]> fs)).
Proof.
  repeat split.
  - intros Hlen. unfold CreateTar.main.
    destruct (Nat.eqb_spec (List.length argv) 3); [contradiction|reflexivity].
  - intros prog source_dir output_tar -> Hsrc. unfold CreateTar.main.
    cbn [List.length Nat.eqb negb nth].
    rewrite builder_refuses by exact Hsrc. reflexivity.
  - intros prog source_dir output_tar fs' -> Hrun. unfold CreateTar.main.
    cbn [List.length Nat.eqb negb nth]. rewrite Hrun. reflexivity.
  - intros prog source_dir output_tar st children -> Hsrc Hout ->.
    unfold CreateTar.main. cbn [List.length Nat.eqb negb nth].
    rewrite (builder_succeeds _ _ _ st children) by assumption. reflexivity.
Qed.

End Builder.

(** *** Concrete runs *)

(** The archive built from the sample tree: names and modes in the
    order of the walk. *)
Example builder_sample_run :
  map (fun e => (name (header e), mode (header e)))
      (fileobj (snd (build no_names no_names "go" go_tree (mkTarFile [] [] None))))
  = [ ("go/", o755); ("go/bin/", o755); ("go/pkg/", o755); ("go/src/", o755);
      ("go/VERSION", o644); ("go/tools", o755); ("go/bin/go", o755);
      ("go/pkg/tool/", o755); ("go/pkg/tool/linux_amd64/", o755);
      ("go/pkg/tool/README", o755); ("go/pkg/tool/linux_amd64/compile", o755);
      ("go/src/bin/", o755); ("go/src/bin/x.go", o644) ].
Proof. reflexivity. Qed.

(** The failure scenario of the specification: the source is missing,
    the exit code is 1 and no file appears. *)
Example builder_missing_source :
  main no_names no_names (fun p => p)
       ["create_tar.py"; "./temp/go"; "./output/go.tar.gz"] None ∅
  = (1, ∅).
Proof. reflexivity. Qed.

Example builder_sample_exit :
  fst (main no_names no_names (fun p => p)
            ["create_tar.py"; "./temp/go"; "./output/go.tar.gz"] None
            {[ "./temp/go" := Node go_tree ]})
  = 0.
Proof. reflexivity. Qed.

End CreateTarFacts.

(** ** Straight runs of writes *)

Module WriteFacts.
Import Tarfile.

Lemma bind_assoc {A B C} (c : io A) (k : A -> io B) (k' : B -> io C) (s : TarFile) :
  bind (bind c k) k' s = bind c (fun a => bind (k a) k') s.
Proof. unfold bind. destruct (c s) as [[a|] s1]; reflexivity. Qed.

Lemma bind_ret_unit (c : io unit) (s : TarFile) :
  bind c (fun _ => ret tt) s = c s.
Proof. unfold bind, ret. destruct (c s) as [[[]|] s1]; reflexivity. Qed.

Lemma bind_ext {A B} (c c' : io A) (k k' : A -> io B) (s : TarFile) :
  c s = c' s -> (forall a s', k a s' = k' a s') -> bind c k s = bind c' k' s.
Proof.
  intros Hc Hk. unfold bind. rewrite Hc.
  destruct (c' s) as [[a|] s1]; [apply Hk | reflexivity].
Qed.

Lemma flat_map_single {A B} (f : A -> B) (l : list A) :
  flat_map (fun x => [f x]) l = map f l.
Proof. induction l as [|x l IH]; cbn; congruence. Qed.


Lemma write_all_nil (s : TarFile) : write_all [] s = (Ok tt, s).
Proof. reflexivity. Qed.

Lemma write_all_one (it : TarInfo * list byte) (s : TarFile) :
  write_all [it] s = bind tick (fun _ => emit (fst it) (snd it)) s.
Proof. unfold write_all. cbn [for_each]. apply bind_ret_unit. Qed.

Lemma write_all_app (l1 l2 : list (TarInfo * list byte)) (s : TarFile) :
  write_all (l1 ++ l2) s = bind (write_all l1) (fun _ => write_all l2) s.
Proof.
  revert s. induction l1 as [|it l1 IH]; intros s.
  - reflexivity.
  - unfold write_all in *. cbn [for_each app].
    etransitivity; [|symmetry; apply bind_assoc].
    apply bind_ext; [reflexivity|]. intros _ s'. apply IH.
Qed.

(** A loop whose every pass is a straight run is one. *)
Lemma for_each_write_all {A} (xs : list A) (body : A -> io unit)
      (items : A -> list (TarInfo * list byte)) :
  (forall x, In x xs -> forall s, body x s = write_all (items x) s) ->
  forall s, for_each xs body s = write_all (flat_map items xs) s.
Proof.
  induction xs as [|x xs IH]; intros Hb s.
  - reflexivity.
  - cbn [for_each flat_map]. rewrite write_all_app.
    apply bind_ext.
    + apply Hb. left. reflexivity.
    + intros _ s'. apply IH. intros y Hy. apply Hb. right. exact Hy.
Qed.

Lemma addfile_write_all (t : TarInfo) (f : option (list byte)) (d : list byte)
      (s : TarFile) :
  match f with
  | None => d = []
  | Some src => copyfileobj src (size t) = Ok d
  end ->
  addfile t f s = write_all [(t, d)] s.
Proof.
  intros Hf. rewrite write_all_one. unfold addfile. cbn [fst snd].
  destruct f as [src|]; [rewrite Hf | subst d]; reflexivity.
Qed.

(** The outcome of a straight run under every budget: the items before
    the fault are written, and the run raises exactly when the budget
    ends inside it. *)
Lemma write_all_run (items : list (TarInfo * list byte)) ms fo (b : option nat) :
  write_all items (mkTarFile ms fo b)
  = match b with
    | None =>
        (Ok tt, mkTarFile (ms ++ map fst items) (fo ++ map stored items) None)
    | Some k =>
        if (k <? List.length items)%nat
        then (Raised, mkTarFile (ms ++ map fst (firstn k items))
                                (fo ++ map stored (firstn k items)) (Some O))
        else (Ok tt, mkTarFile (ms ++ map fst items) (fo ++ map stored items)
                               (Some (k - List.length items)%nat))
    end.
Proof.
  revert ms fo b. induction items as [|it items IH]; intros ms fo b.
  - rewrite write_all_nil. destruct b as [k|]; cbn [List.length map firstn].
    + rewrite !app_nil_r, Nat.sub_0_r.
      destruct k; cbn; rewrite ?app_nil_r; reflexivity.
    + rewrite !app_nil_r. reflexivity.
  - change (it :: items) with ([it] ++ items)%list.
    rewrite write_all_app. unfold bind at 1. rewrite write_all_one.
    unfold bind at 1, tick, emit. cbn [budget members fileobj].
    destruct b as [[|k]|].
    + cbn. rewrite !app_nil_r. reflexivity.
    + cbn [budget members fileobj]. rewrite IH. cbn [app List.length firstn map].
      change (S k <? S (List.length items))%nat with (k <? List.length items)%nat.
      destruct (k <? List.length items)%nat;
        rewrite <- !app_assoc; reflexivity.
    + cbn [budget members fileobj]. rewrite IH. cbn [app map].
      rewrite <- !app_assoc. reflexivity.
Qed.

End WriteFacts.

(** ** More on the fixer *)

Module FixTarExecsMore.
Import Tarfile FixTarExecs TarfileFacts WriteFacts FixTarExecsFacts.

Lemma tarinfo_fields (t u : TarInfo) :
  name t = name u -> mode t = mode u -> uid t = uid u -> gid t = gid u ->
  size t = size u -> mtime t = mtime u -> type t = type u ->
  linkname t = linkname u -> uname t = uname u -> gname t = gname u ->
  t = u.
Proof. destruct t, u. cbn. intros; subst; reflexivity. Qed.

Lemma frombuf_keeps (t : TarInfo) :
  mode (frombuf t) = mode t /\ uid (frombuf t) = uid t /\ gid (frombuf t) = gid t
  /\ size (frombuf t) = size t /\ mtime (frombuf t) = mtime t
  /\ linkname (frombuf t) = linkname t /\ uname (frombuf t) = uname t
  /\ gname (frombuf t) = gname t.
Proof.
  unfold frombuf.
  destruct (Byte.eqb (type t) AREGTYPE && PyStr.endswith_slash (name t));
    [cbn; auto 10|].
  destruct (isdir t); cbn; auto 10.
Qed.

(** The header the fixer stores for a stored header. *)
Lemma stored_again (t : TarInfo) :
  get_info (rebuilt (frombuf (get_info (rebuilt (frombuf t)))))
  = get_info (rebuilt (frombuf t))
  <-> settled (frombuf t).
Proof.
  rewrite <- rerun_mode.
  destruct (reread_rebuilt t) as (Hn & Ht & Hm).
  destruct (frombuf_keeps (get_info (rebuilt (frombuf t))))
    as (_ & Hu & Hg & _ & Hmt & _ & Hun & Hgn).
  set (u := frombuf t) in *. set (u' := frombuf (get_info (rebuilt u))) in *.
  cbn in Hu, Hg, Hmt, Hun, Hgn.
  split.
  - intros H. apply (f_equal mode) in H. exact H.
  - intros H. apply tarinfo_fields; try reflexivity; try assumption.
    + unfold get_info. cbn [type name rebuilt set_name set_mode].
      rewrite Hn, Ht. reflexivity.
Qed.

Lemma stored_is_settled (t : TarInfo) :
  settled (frombuf (get_info (rebuilt (frombuf t)))).
Proof.
  destruct (reread_rebuilt t) as (_ & _ & Hm).
  intros _ _ H0. rewrite Hm in *. rewrite land_o7777_idem. exact H0.
Qed.

Lemma executable_name_spec (n : string) :
  PyStr.startswith (normalize n) "go/bin/"
  || PyStr.startswith (normalize n) "go/pkg/tool/" = true
  <-> starts_with n "go/bin/" \/ starts_with n "go/pkg/tool/"
      \/ starts_with n "./go/bin/" \/ starts_with n "./go/pkg/tool/".
Proof.
  unfold starts_with. rewrite <- !PyStrFacts.startswith_spec.
  unfold normalize.
  destruct (PyStr.startswith n "./") eqn:E.
  - apply PyStrFacts.startswith_spec in E as [r ->].
    change (PyStr.slice_from 2 ("./" ++ r)) with r.
    change (PyStr.startswith ("./" ++ r) "go/bin/") with false.
    change (PyStr.startswith ("./" ++ r) "go/pkg/tool/") with false.
    change (PyStr.startswith ("./" ++ r) "./go/bin/")
      with (PyStr.startswith r "go/bin/").
    change (PyStr.startswith ("./" ++ r) "./go/pkg/tool/")
      with (PyStr.startswith r "go/pkg/tool/").
    rewrite orb_true_iff. intuition discriminate.
  - assert (H1 : PyStr.startswith n "./go/bin/" = false).
    { destruct (PyStr.startswith n "./go/bin/") eqn:E1; [|reflexivity].
      apply PyStrFacts.startswith_spec in E1 as [r ->]. discriminate E. }
    assert (H2 : PyStr.startswith n "./go/pkg/tool/" = false).
    { destruct (PyStr.startswith n "./go/pkg/tool/") eqn:E2; [|reflexivity].
      apply PyStrFacts.startswith_spec in E2 as [r ->]. discriminate E. }
    rewrite H1, H2, orb_true_iff. intuition discriminate.
Qed.

Section Fixer.

Variable link_fileobj : list entry -> TarInfo -> result (option (list byte)).

Local Abbreviation fix_member := (fix_member link_fileobj).
Local Abbreviation rewrite_archive := (rewrite_archive link_fileobj).
Local Abbreviation fix_tar := (fix_tar link_fileobj).
Local Abbreviation fixed := (fixed link_fileobj).
Local Abbreviation descriptors := (descriptors link_fileobj).
Local Abbreviation main := (main link_fileobj).

(** One pass of the loop body is one write, under every budget. *)
Lemma fix_member_write (src : list entry) (member : entry) (s : TarFile) :
  fix_member src member s = write_all [(rebuilt (header member), [])] s.
Proof.
  unfold FixTarExecs.fix_member, rebuilt, new_mode. cbv zeta.
  destruct (isdir (header member)) eqn:Hd.
  - apply (addfile_write_all _ None []). reflexivity.
  - destruct (isreg (header member)) eqn:Hr.
    + rewrite (extractfile_reg link_fileobj src member Hr).
      destruct (PyStr.startswith _ "go/bin/" || PyStr.startswith _ "go/pkg/tool/");
        apply (addfile_write_all _ (Some (data member)) []); reflexivity.
    + destruct (extractfile link_fileobj src member) as [[f|]|];
        first [ apply (addfile_write_all _ (Some f) []); reflexivity
              | apply (addfile_write_all _ None []); reflexivity ].
Qed.

Lemma fixed_raw (a : list entry) :
  fixed a = map (fun e => mkEntry (get_info (rebuilt (frombuf (header e)))) []) a.
Proof. rewrite fixed_eq. unfold getmembers. rewrite map_map. reflexivity. Qed.

(** The [with] block under every budget: it raises exactly when the
    budget ends within its [1 + n] operations, and what has reached
    the temporary file is then a prefix of the rewrite. *)
Lemma rewrite_archive_outcome (a : list entry) (faults : option nat) :
  rewrite_archive a (mkTarFile [] [] faults)
  = match faults with
    | None => (Ok tt, mkTarFile (descriptors a) (fixed a) None)
    | Some O => (Raised, mkTarFile [] [] (Some O))
    | Some (S k) =>
        if (k <? List.length a)%nat
        then (Raised, mkTarFile (firstn k (descriptors a)) (firstn k (fixed a))
                                (Some O))
        else (Ok tt, mkTarFile (descriptors a) (fixed a)
                               (Some (k - List.length a)%nat))
    end.
Proof.
  rewrite descriptors_eq, fixed_eq.
  unfold FixTarExecs.rewrite_archive, bind at 1, tick. cbn [budget members fileobj].
  set (items := map (fun e => (rebuilt (header e), @nil byte)) (getmembers a)).
  assert (Hrun : forall s,
             for_each (getmembers a) (fix_member (getmembers a)) s
             = write_all items s).
  { intros s. unfold items. rewrite <- flat_map_single.
    apply for_each_write_all. intros x _ s'. apply fix_member_write. }
  assert (Hm : map fst items = map (fun e => rebuilt (header e)) (getmembers a)).
  { unfold items. rewrite map_map. reflexivity. }
  assert (Hs : map stored items
               = map (fun e => mkEntry (get_info (rebuilt (header e))) [])
                     (getmembers a)).
  { unfold items. rewrite map_map. reflexivity. }
  assert (Hl : List.length items = List.length a).
  { unfold items, getmembers. rewrite !length_map. reflexivity. }
  destruct faults as [[|k]|]; [reflexivity| |];
    rewrite Hrun, write_all_run; cbn [app];
    rewrite ?Hl, <- ?firstn_map, ?Hm, ?Hs; reflexivity.
Qed.

(** [fix_tar] under every budget, for a fresh temporary name. *)
Lemma fix_tar_outcome (tar_path tmp_path : string) (faults : option nat)
      (fs : gmap string file) :
  fs !! tmp_path = None ->
  fix_tar tar_path tmp_path faults fs
  = match fs !! tar_path with
    | Some (TarGz a) =>
        if match faults with
           | None => true
           | Some k => (List.length a <? k)%nat
           end
        then (Ok tt, <[tar_path := TarGz (fixed a)]> fs)
        else (Raised, fs)
    | _ => (Raised, fs)
    end.
Proof.
  intros Ht. unfold FixTarExecs.fix_tar.
  destruct (decide (tmp_path = tar_path)) as [->|Hne].
  - rewrite lookup_insert_eq, Ht.
    rewrite lookup_insert_eq, delete_insert_eq, delete_id by exact Ht.
    reflexivity.
  - rewrite lookup_insert_ne by exact Hne.
    destruct (fs !! tar_path) as [[|a]|] eqn:Ha.
    + rewrite lookup_insert_eq, delete_insert_eq, delete_id by exact Ht.
      reflexivity.
    + rewrite rewrite_archive_outcome.
      assert (Hclean : forall f, delete tmp_path (<[tmp_path:=f]> (<[tmp_path:=Blank]> fs)) = fs).
      { intros f. rewrite insert_insert_eq, delete_insert_eq, delete_id by exact Ht.
        reflexivity. }
      assert (Hgone : (<[tar_path:=TarGz (fixed a)]> fs) !! tmp_path = None).
      { rewrite lookup_insert_ne by congruence. exact Ht. }
      destruct faults as [[|k]|].
      * cbn [fileobj]. rewrite lookup_insert_eq, Hclean. reflexivity.
      * change (List.length a <? S k)%nat with (List.length a <=? k)%nat.
        destruct (Nat.ltb_spec k (List.length a)) as [Hlt|Hge];
          destruct (Nat.leb_spec (List.length a) k) as [Hle|Hgt]; try lia;
          cbn [fileobj]; rewrite !lookup_insert_eq, ?Hclean, ?Hgone; reflexivity.
      * cbn [fileobj]. rewrite !lookup_insert_eq, Hclean, Hgone. reflexivity.
    + rewrite lookup_insert_eq, delete_insert_eq, delete_id by exact Ht.
      reflexivity.
Qed.

(** X1: [fix_tar] is all or nothing.  Under any I/O budget it either
    raises and leaves the file system exactly as it was, or returns
    normally with the archive replaced by its complete rewrite and
    nothing else changed; a partial rewrite is never left behind. *)
Theorem fix_tar_all_or_nothing (tar_path tmp_path : string)
        (faults : option nat) (fs : gmap string file) :
  fs !! tmp_path = None ->
  fix_tar tar_path tmp_path faults fs = (Raised, fs)
  \/ exists a, fs !! tar_path = Some (TarGz a)
               /\ fix_tar tar_path tmp_path faults fs
                  = (Ok tt, <[tar_path := TarGz (fixed a)]> fs).
Proof.
  intros Ht. rewrite (fix_tar_outcome _ _ _ _ Ht).
  destruct (fs !! tar_path) as [[|a]|]; auto.
  destruct (match faults with None => true | Some k => (List.length a <? k)%nat end);
    eauto.
Qed.

(** X2: on a readable archive and without an I/O fault, [fix_tar]
    returns normally; the archive then holds one rewritten entry
    per member and every other path is as before. *)
Theorem fix_tar_fault_free_rewrites (tar_path tmp_path : string)
        (a : list entry) (fs : gmap string file) :
  fs !! tar_path = Some (TarGz a) -> fs !! tmp_path = None ->
  fix_tar tar_path tmp_path None fs = (Ok tt, <[tar_path := TarGz (fixed a)]> fs)
  /\ List.length (fixed a) = List.length a
  /\ (forall p, p <> tar_path ->
                snd (fix_tar tar_path tmp_path None fs) !! p = fs !! p).
Proof.
  intros Ha Ht. rewrite (fix_tar_outcome _ _ _ _ Ht), Ha. cbn [snd].
  split; [reflexivity|]. split.
  - rewrite fixed_raw. apply length_map.
  - intros p Hp. apply lookup_insert_ne. congruence.
Qed.


(** X4: the fixer neither drops, adds nor reorders entries and never
    changes an entry's type: the rewritten archive has as many
    entries as the original, with the same types and (read back)
    the same names, position by position. *)
Theorem fixer_keeps_entries_and_types (a : list entry) :
  List.length (fixed a) = List.length a
  /\ map (fun e => type (header e)) (fixed a)
     = map (fun e => type (header e)) (getmembers a)
  /\ map (fun e => (name (header e), type (header e))) (getmembers (fixed a))
     = map (fun e => (name (header e), type (header e))) (getmembers a).
Proof.
  rewrite fixed_raw. unfold getmembers. rewrite !map_map, length_map.
  split; [reflexivity|]. split; [reflexivity|].
  apply map_ext. intros e. cbn [header].
  destruct (reread_rebuilt (header e)) as (Hn & Hty & _).
  rewrite Hn, Hty. reflexivity.
Qed.

(** X5: whatever the archive, every entry the fixer writes is
    metadata only: size 0, no data and an empty link target. *)
Theorem fixer_output_is_metadata_only (a : list entry) :
  Forall (fun out => size (header out) = 0
                     /\ data out = []
                     /\ linkname (header out) = "")
         (fixed a).
Proof.
  rewrite fixed_raw. apply List.Forall_forall. intros out Hin.
  apply in_map_iff in Hin as (e & <- & _). cbn. auto.
Qed.

Lemma fixed_twice (a : list entry) :
  fixed (fixed a)
  = map (fun e => mkEntry (get_info (rebuilt (frombuf
                    (get_info (rebuilt (frombuf (header e))))))) []) a.
Proof. rewrite (fixed_raw (fixed a)), (fixed_raw a), map_map. reflexivity. Qed.

(** X6: a second run reproduces the whole archive, not only its
    modes, exactly when every member is settled. *)
Theorem fixer_idempotent_iff_settled (a : list entry) :
  fixed (fixed a) = fixed a
  <-> Forall (fun e => settled (header e)) (getmembers a).
Proof.
  rewrite fixed_twice, (fixed_raw a).
  unfold getmembers. rewrite Forall_map. cbn [header].
  rewrite map_eq_Forall. apply Forall_iff. intros e. cbn beta.
  rewrite <- stored_again. split.
  - intros H. apply (f_equal header) in H. exact H.
  - intros H. rewrite H. reflexivity.
Qed.

(** X7: after one run every member is settled, so the archive is
    stable from the second run on: a third run changes nothing. *)
Theorem fixer_stable_after_two_runs (a : list entry) :
  fixed (fixed (fixed a)) = fixed (fixed a).
Proof.
  rewrite (fixed_twice (fixed a)), (fixed_raw (fixed a)), (fixed_raw a), !map_map.
  apply map_ext. intros e. cbn [header]. f_equal.
  apply stored_again, stored_is_settled.
Qed.

(** X8: a regular-file entry is written with mode 0755 exactly when
    its name starts with go/bin/, go/pkg/tool/, ./go/bin/ or
    ./go/pkg/tool/; only one leading ./ is looked through. *)
Theorem fixer_executable_names (a : list entry) :
  Forall2 (fun e out =>
             isreg (header e) = true ->
             (mode (header out) = o755
              <-> starts_with (name (header e)) "go/bin/"
                  \/ starts_with (name (header e)) "go/pkg/tool/"
                  \/ starts_with (name (header e)) "./go/bin/"
                  \/ starts_with (name (header e)) "./go/pkg/tool/")
             /\ (mode (header out) = o755 \/ mode (header out) = o644))
          (getmembers a) (fixed a).
Proof.
  apply fixed_Forall2. intros e Hr. cbn [header]. rewrite stored_mode.
  unfold new_mode. rewrite (isreg_not_isdir _ Hr), Hr.
  rewrite <- executable_name_spec.
  destruct (PyStr.startswith _ "go/bin/" || PyStr.startswith _ "go/pkg/tool/");
    cbn; split; auto; split; auto; discriminate.
Qed.

End Fixer.

(** *** Concrete runs *)

(** A run cut short by a fault at its third operation: the disk is
    unchanged. *)
Lemma fix_tar_all_or_nothing_witness :
  let disk : gmap string file :=
    {[ "go.tar.gz" := TarGz go_archive; "notes.txt" := Blank ]} in
  disk !! "/tmp/tmpq2.tar.gz" = None
  /\ (fix_tar no_links "go.tar.gz" "/tmp/tmpq2.tar.gz" (Some 2%nat) disk = (Raised, disk)
      \/ exists a, disk !! "go.tar.gz" = Some (TarGz a)
                   /\ fix_tar no_links "go.tar.gz" "/tmp/tmpq2.tar.gz" (Some 2%nat) disk
                      = (Ok tt, <["go.tar.gz" := TarGz (fixed no_links a)]> disk)).
Proof.
  intros disk.
  assert (Hfresh : disk !! "/tmp/tmpq2.tar.gz" = None) by reflexivity.
  split; [exact Hfresh|].
  exact (fix_tar_all_or_nothing no_links "go.tar.gz" "/tmp/tmpq2.tar.gz"
                                (Some 2%nat) disk Hfresh).
Defined.

Lemma fix_tar_fault_free_rewrites_witness :
  let disk : gmap string file :=
    {[ "go.tar.gz" := TarGz go_archive; "notes.txt" := Blank ]} in
  disk !! "go.tar.gz" = Some (TarGz go_archive)
  /\ disk !! "/tmp/tmpq2.tar.gz" = None
  /\ fix_tar no_links "go.tar.gz" "/tmp/tmpq2.tar.gz" None disk
     = (Ok tt, <["go.tar.gz" := TarGz (fixed no_links go_archive)]> disk)
  /\ snd (fix_tar no_links "go.tar.gz" "/tmp/tmpq2.tar.gz" None disk) !! "notes.txt"
     = disk !! "notes.txt".
Proof.
  intros disk.
  assert (Ha : disk !! "go.tar.gz" = Some (TarGz go_archive)) by reflexivity.
  assert (Hfresh : disk !! "/tmp/tmpq2.tar.gz" = None) by reflexivity.
  destruct (fix_tar_fault_free_rewrites no_links "go.tar.gz" "/tmp/tmpq2.tar.gz"
                                        go_archive disk Ha Hfresh)
    as (Hrun & _ & Hframe).
  split; [exact Ha|]. split; [exact Hfresh|]. split; [exact Hrun|].
  apply Hframe. discriminate.
Defined.


End FixTarExecsMore.

(** ** More on the builder *)

Module CreateTarMore.
Import Tarfile CreateTar TarfileFacts WriteFacts CreateTarFacts.

Lemma filter_both {A} (p : A -> bool) (l : list A) :
  List.length (List.filter p l ++ List.filter (fun x => negb (p x)) l)
  = List.length l.
Proof.
  rewrite length_app. induction l as [|x l IH]; [reflexivity|].
  cbn [List.filter]. destruct (p x); cbn [negb List.length]; lia.
Qed.

Lemma in_filter_both {A} (p : A -> bool) (l : list A) (x : A) :
  In x l -> In x (List.filter p l ++ List.filter (fun x => negb (p x)) l).
Proof.
  intros Hin. apply in_or_app. rewrite !filter_In.
  destruct (p x) eqn:E; [left | right]; rewrite ?E; auto.
Qed.

Lemma at_path_last (top : node) parts n :
  at_path top parts n ->
  (parts = [] /\ n = top)
  \/ exists p seg st children,
       parts = (p ++ [seg])%list
       /\ at_path top p (Dir st children) /\ In (seg, n) children.
Proof.
  induction 1 as [n | st children seg c parts n Hin Hp IH].
  - left. auto.
  - right. destruct IH as [[-> ->] | (p & s & st' & ch' & -> & Hp' & Hin')].
    + exists [], seg, st, children. repeat split; auto. apply at_here.
    + exists (seg :: p), s, st', ch'. repeat split; auto.
      eapply at_child; eauto.
Qed.

(** The walk reaches every directory of the tree. *)
Lemma os_walk_complete (n0 : node) p st children :
  at_path n0 p (Dir st children) ->
  forall r0,
    In ((r0 ++ p)%list,
        List.filter (fun c => is_dir (snd c)) children,
        List.filter (fun c => negb (is_dir (snd c))) children)
       (os_walk r0 n0).
Proof.
  intros Hp. remember (Dir st children) as d eqn:Ed.
  induction Hp as [n | st0 ch0 seg c parts n Hin Hp IH]; intros r0; subst.
  - rewrite os_walk_dir, app_nil_r. left. reflexivity.
  - rewrite os_walk_dir. right. apply in_flat_map.
    exists (seg, c). split; [exact Hin|]. cbn [fst snd].
    specialize (IH eq_refl (r0 ++ [seg])%list).
    rewrite <- app_assoc in IH. exact IH.
Qed.

(** In the walk, a directory's step comes before the step of each of
    its sub-directories. *)
Lemma os_walk_order (n0 : node) q stq chq s st children :
  at_path n0 q (Dir stq chq) -> In (s, Dir st children) chq ->
  forall r0, exists t1 t2 t3,
    os_walk r0 n0
    = (t1 ++ ((r0 ++ q)%list,
             List.filter (fun c => is_dir (snd c)) chq,
             List.filter (fun c => negb (is_dir (snd c))) chq)
          :: t2 ++ (((r0 ++ q) ++ [s])%list,
                    List.filter (fun c => is_dir (snd c)) children,
                    List.filter (fun c => negb (is_dir (snd c))) children)
          :: t3)%list.
Proof.
  intros Hp Hin. remember (Dir stq chq) as d eqn:Ed.
  induction Hp as [n | st0 ch0 seg c parts n Hin0 Hp IH]; intros r0; subst.
  - rewrite os_walk_dir, app_nil_r.
    apply in_split in Hin as (c1 & c2 & ->).
    rewrite flat_map_app. cbn [flat_map fst snd]. rewrite os_walk_dir.
    exists [], (flat_map (fun c => os_walk (r0 ++ [fst c]) (snd c)) c1).
    eexists. cbn [app]. reflexivity.
  - rewrite os_walk_dir.
    apply in_split in Hin0 as (c1 & c2 & ->).
    rewrite flat_map_app. cbn [flat_map fst snd].
    destruct (IH eq_refl (r0 ++ [seg])%list) as (t1 & t2 & t3 & ->).
    exists ((r0,
             List.filter (fun c => is_dir (snd c)) (c1 ++ (seg, c) :: c2),
             List.filter (fun c => negb (is_dir (snd c))) (c1 ++ (seg, c) :: c2))
              :: flat_map (fun c => os_walk (r0 ++ [fst c]) (snd c)) c1 ++ t1)%list,
           t2,
           (t3 ++ flat_map (fun c => os_walk (r0 ++ [fst c]) (snd c)) c2)%list.
    repeat (rewrite <- ?app_assoc, <- ?app_comm_cons; cbn [app]).
    reflexivity.
Qed.





Lemma is_executable_app (parts more : list string) :
  is_executable parts = true -> is_executable (parts ++ more) = true.
Proof.
  rewrite !is_executable_spec. unfold executable_path.
  rewrite length_app.
  intros [[Hl H0] | [[Hl [H0 H1]] | H0]].
  - left. split; [lia|]. apply lookup_app_l_Some. exact H0.
  - right. left. split; [lia|].
    split; apply lookup_app_l_Some; assumption.
  - right. right. apply lookup_app_l_Some. exact H0.
Qed.

Lemma count_nodes_pos (n : node) : (1 <= count_nodes n)%nat.
Proof. destruct n; cbn; lia. Qed.

Section Builder.

Variables getpwuid getgrgid : Z -> option string.
Variable resolve : string -> string.

Local Abbreviation gettarinfo := (gettarinfo getpwuid getgrgid).
Local Abbreviation add_dir := (add_dir getpwuid getgrgid).
Local Abbreviation add_file := (add_file getpwuid getgrgid).
Local Abbreviation build := (build getpwuid getgrgid).
Local Abbreviation item_for := (item_for getpwuid getgrgid).
Local Abbreviation step_items := (step_items getpwuid getgrgid).
Local Abbreviation plan := (plan getpwuid getgrgid).
Local Abbreviation create_tar_with_permissions :=
  (create_tar_with_permissions getpwuid getgrgid resolve).
Local Abbreviation main := (main getpwuid getgrgid resolve).

Lemma add_dir_write (base_name : string) (root : list string) d (s : TarFile) :
  is_dir (snd d) = true ->
  add_dir base_name root d s
  = write_all [item_for base_name (root ++ [fst d]) (snd d)] s.
Proof.
  destruct d as [seg [|st children]]; [discriminate|]. intros _.
  unfold CreateTar.add_dir. cbn [fst snd].
  apply (addfile_write_all _ None []). reflexivity.
Qed.

Lemma add_file_write (base_name : string) (root : list string) f (s : TarFile) :
  is_dir (snd f) = false ->
  add_file base_name root f s
  = write_all [item_for base_name (root ++ [fst f]) (snd f)] s.
Proof.
  destruct f as [seg [st content|]]; [|discriminate]. intros _.
  unfold CreateTar.add_file. cbn [fst snd].
  apply (addfile_write_all _ (Some content) content).
  cbn [size set_mode CreateTar.gettarinfo]. apply copyfileobj_all.
Qed.

(** [build] is the straight run of its plan, under every budget. *)
Lemma build_write_all (base_name : string) st children (s : TarFile) :
  build base_name (Dir st children) s
  = write_all (plan base_name (Dir st children)) s.
Proof.
  set (source := Dir st children).
  unfold CreateTar.build, CreateTar.plan.
  change (item_for base_name [] source :: ?l)
    with ([item_for base_name [] source] ++ l)%list.
  rewrite write_all_app. apply bind_ext.
  - apply (addfile_write_all _ None []). reflexivity.
  - intros _ s'. apply for_each_write_all.
    intros [[root dirs] files] Hin s''.
    destruct (os_walk_sound source source [] (at_here source) _ _ _ Hin)
      as (st' & children' & _ & Hdirs & Hfiles).
    unfold CreateTar.step_items. rewrite map_app, write_all_app.
    apply bind_ext.
    + rewrite <- flat_map_single. apply for_each_write_all.
      intros d Hd s3. apply add_dir_write. apply Hdirs, Hd.
    + intros _ s3. rewrite <- flat_map_single. apply for_each_write_all.
      intros f Hf s4. apply add_file_write. apply Hfiles, Hf.
Qed.

Lemma describes_item (base_name : string) (parts : list string) (n : node) :
  describes base_name parts n (stored (item_for base_name parts n)).
Proof.
  unfold describes, stored, CreateTar.item_for.
  destruct n as [st content | st children]; cbn [fst snd header data].
  - repeat split. rewrite mode_get_info. cbn [mode set_mode]. apply land_choice.
  - repeat split.
    unfold get_info, with_slash.
    cbn [type name set_mode CreateTar.gettarinfo is_dir set_name].
    destruct (PyStr.endswith_slash _); reflexivity.
Qed.

(** The archive of a fault-free build. *)
Lemma build_fault_free (base_name : string) st children :
  fileobj (snd (build base_name (Dir st children) (mkTarFile [] [] None)))
  = map stored (plan base_name (Dir st children)).
Proof. rewrite build_write_all, write_all_run. reflexivity. Qed.

(** What a build has written, under every budget, is a prefix of
    that archive. *)
Lemma build_prefix (base_name : string) st children (faults : option nat) :
  exists k,
    fileobj (snd (build base_name (Dir st children) (mkTarFile [] [] faults)))
    = map stored (firstn k (plan base_name (Dir st children))).
Proof.
  rewrite build_write_all, write_all_run.
  destruct faults as [k|].
  - destruct (k <? _)%nat; cbn [snd fileobj app].
    + exists k. reflexivity.
    + exists (List.length (plan base_name (Dir st children))).
      rewrite firstn_all. reflexivity.
  - exists (List.length (plan base_name (Dir st children))).
    rewrite firstn_all. reflexivity.
Qed.


(** The item of a child is in the step of its directory. *)
Lemma child_in_step (base_name : string) (p : list string) children seg c :
  In (seg, c) children ->
  In (item_for base_name (p ++ [seg]) c)
     (step_items base_name
        (p, List.filter (fun c => is_dir (snd c)) children,
            List.filter (fun c => negb (is_dir (snd c))) children)).
Proof.
  intros Hin. unfold CreateTar.step_items.
  apply (in_map (fun c0 => item_for base_name (p ++ [fst c0]) (snd c0))
                _ (seg, c)).
  apply in_filter_both. exact Hin.
Qed.

Lemma steps_length (base_name : string) (n : node) :
  forall root,
    List.length (flat_map (step_items base_name) (os_walk root n))
    = (count_nodes n - 1)%nat.
Proof.
  induction n as [st content | st children IH] using node_nested_ind;
    intros root; [reflexivity|].
  rewrite os_walk_dir. cbn [flat_map count_nodes].
  rewrite length_app. unfold CreateTar.step_items at 1.
  rewrite length_map, filter_both, Nat.sub_succ, Nat.sub_0_r.
  induction children as [|c children IHc]; [reflexivity|].
  apply Forall_cons_1 in IH as [Hc Hcs].
  cbn [flat_map map list_sum List.length]. rewrite flat_map_app, length_app.
  rewrite Hc. specialize (IHc Hcs).
  pose proof (count_nodes_pos (snd c)).
  unfold list_sum in *. cbn [List.length fold_right] in *. lia.
Qed.


(** X10: a fault-free build writes exactly one entry per file and
    directory of the source tree, the root included. *)
Theorem builder_entry_count (base_name : string) st children :
  List.length (fileobj (snd (build base_name (Dir st children)
                                   (mkTarFile [] [] None))))
  = count_nodes (Dir st children).
Proof.
  rewrite build_fault_free, length_map. unfold CreateTar.plan.
  cbn [List.length]. rewrite steps_length.
  pose proof (count_nodes_pos (Dir st children)). lia.
Qed.

(** X11: the base entry comes first.  Whatever the budget, the first
    entry written is the directory entry of the source root under
    the base name, and a fault-free build does write it. *)
Theorem builder_base_entry_first (base_name : string) st children
        (faults : option nat) :
  (forall e rest,
      fileobj (snd (build base_name (Dir st children) (mkTarFile [] [] faults)))
      = e :: rest ->
      describes base_name [] (Dir st children) e)
  /\ (faults = None ->
      fileobj (snd (build base_name (Dir st children) (mkTarFile [] [] faults)))
      <> []).
Proof.
  split.
  - intros e rest. destruct (build_prefix base_name st children faults) as [k ->].
    unfold CreateTar.plan. destruct k; [discriminate|].
    cbn [firstn map]. intros H. injection H as <- _. apply describes_item.
  - intros ->. rewrite build_fault_free. discriminate.
Qed.

(** X12: parents come before children.  In a fault-free build the
    entry of a directory precedes the entry of each file and
    directory it contains. *)
Theorem builder_parents_first (base_name : string) st children
        (p : list string) st' children' (seg : string) (c : node) :
  at_path (Dir st children) p (Dir st' children') ->
  In (seg, c) children' ->
  exists l1 e_dir l2 e_child l3,
    fileobj (snd (build base_name (Dir st children) (mkTarFile [] [] None)))
    = (l1 ++ e_dir :: l2 ++ e_child :: l3)%list
    /\ describes base_name p (Dir st' children') e_dir
    /\ describes base_name (p ++ [seg]) c e_child.
Proof.
  intros Hp Hin. rewrite build_fault_free.
  assert (Hplan : exists i1 i2 i3,
             plan base_name (Dir st children)
             = (i1 ++ item_for base_name p (Dir st' children')
                   :: i2 ++ item_for base_name (p ++ [seg]) c :: i3)%list).
  { unfold CreateTar.plan.
    destruct (at_path_last _ _ _ Hp)
      as [[-> Heq] | (q & s & stq & chq & -> & Hq & Hinq)].
    - injection Heq as -> ->.
      pose proof (os_walk_complete _ _ _ _ Hp []) as Hstep. cbn [app] in Hstep.
      apply in_split in Hstep as (t1 & t2 & ->).
      rewrite flat_map_app. cbn [flat_map].
      pose proof (child_in_step base_name [] _ _ _ Hin) as Hc.
      apply in_split in Hc as (a & b & ->).
      exists [], (flat_map (step_items base_name) t1 ++ a)%list.
      eexists. cbn [app]. rewrite <- !app_assoc. cbn [app]. reflexivity.
    - destruct (os_walk_order _ _ _ _ _ _ _ Hq Hinq []) as (t1 & t2 & t3 & ->).
      cbn [app]. rewrite !flat_map_app. cbn [flat_map]. rewrite !flat_map_app.
      cbn [flat_map].
      pose proof (child_in_step base_name q _ _ _ Hinq) as Hd.
      apply in_split in Hd as (a & b & ->).
      pose proof (child_in_step base_name (q ++ [s]) _ _ _ Hin) as Hc.
      apply in_split in Hc as (a' & b' & ->).
      exists (item_for base_name [] (Dir st children)
                :: flat_map (step_items base_name) t1 ++ a)%list,
             (b ++ flat_map (step_items base_name) t2 ++ a')%list,
             (b' ++ flat_map (step_items base_name) t3)%list.
      repeat (rewrite <- ?app_assoc, <- ?app_comm_cons; cbn [app]).
      reflexivity. }
  destruct Hplan as (i1 & i2 & i3 & ->).
  exists (map stored i1), (stored (item_for base_name p (Dir st' children'))),
         (map stored i2), (stored (item_for base_name (p ++ [seg]) c)),
         (map stored i3).
  split; [|split; apply describes_item].
  rewrite map_app. cbn [map]. rewrite map_app. reflexivity.
Qed.





(** X15: the builder writes nowhere but at the output path: every
    other path of the file system is as before, for every source,
    base name and budget. *)
Theorem builder_touches_only_output (source_dir output_tar base_name : string)
        (faults : option nat) (fs : gmap string fsobj) (p : string) :
  p <> output_tar ->
  snd (create_tar_with_permissions source_dir output_tar base_name faults fs) !! p
  = fs !! p.
Proof.
  intros Hp. unfold CreateTar.create_tar_with_permissions.
  destruct (fs !! resolve source_dir) as [[[|st children]|]|]; try reflexivity.
  assert (Hins : forall a, (<[output_tar := Tar a]> fs) !! p = fs !! p).
  { intros a. apply lookup_insert_ne. congruence. }
  destruct (fs !! output_tar) as [[[|st' ch']|]|];
    try reflexivity;
    destruct (tick (mkTarFile [] [] faults)) as [[[]|] tar]; try reflexivity;
    destruct (build base_name (Dir st children) tar) as [[[]|] tar'];
    cbn [snd]; rewrite ?lookup_insert_eq; cbn [snd]; apply Hins.
Qed.

End Builder.

(** X16: the executable rule looks at the top of the path only.  A
    path is executable only if its first segment is bin, pkg or tools,
    and everything below an executable path is executable. *)
Theorem is_executable_top_down (parts more : list string) :
  is_executable parts = true ->
  is_executable (parts ++ more) = true
  /\ (parts !! 0%nat = Some "bin" \/ parts !! 0%nat = Some "pkg"
      \/ parts !! 0%nat = Some "tools").
Proof.
  intros H. split; [apply is_executable_app, H|].
  apply is_executable_spec in H.
  destruct H as [[_ H] | [[_ [H _]] | H]]; auto.
Qed.

(** *** Concrete runs *)


Lemma builder_parents_first_witness :
  at_path go_tree ["bin"] (Dir (st0 16832) [("go", File (st0 33188) hello)])
  /\ In ("go", File (st0 33188) hello) [("go", File (st0 33188) hello)]
  /\ exists l1 e_dir l2 e_child l3,
       fileobj (snd (build no_names no_names "go" go_tree (mkTarFile [] [] None)))
       = (l1 ++ e_dir :: l2 ++ e_child :: l3)%list
       /\ describes "go" ["bin"] (Dir (st0 16832) [("go", File (st0 33188) hello)]) e_dir
       /\ describes "go" (["bin"] ++ ["go"]) (File (st0 33188) hello) e_child.
Proof.
  assert (Hp : at_path go_tree ["bin"]
                       (Dir (st0 16832) [("go", File (st0 33188) hello)])).
  { eapply at_child; [right; left; reflexivity|]. apply at_here. }
  assert (Hin : In ("go", File (st0 33188) hello) [("go", File (st0 33188) hello)])
    by (left; reflexivity).
  split; [exact Hp|]. split; [exact Hin|].
  exact (builder_parents_first no_names no_names "go" _ _ _ _ _ _ _ Hp Hin).
Defined.




Lemma builder_touches_only_output_witness :
  let fs : gmap string fsobj := {[ "./temp/go" := Node go_tree ]} in
  "./temp/go" <> "./output/go.tar.gz"
  /\ snd (create_tar_with_permissions no_names no_names (fun p => p)
             "./temp/go" "./output/go.tar.gz" "go" None fs) !! "./temp/go"
     = fs !! "./temp/go".
Proof.
  intros fs.
  assert (Hne : "./temp/go" <> "./output/go.tar.gz") by discriminate.
  split; [exact Hne|].
  exact (builder_touches_only_output no_names no_names (fun p => p)
           "./temp/go" "./output/go.tar.gz" "go" None fs "./temp/go" Hne).
Defined.

Lemma is_executable_top_down_witness :
  is_executable ["pkg"; "tool"; "linux_amd64"] = true
  /\ is_executable (["pkg"; "tool"; "linux_amd64"] ++ ["compile"]) = true.
Proof.
  assert (H : is_executable ["pkg"; "tool"; "linux_amd64"] = true) by reflexivity.
  split; [exact H|].
  exact (proj1 (is_executable_top_down ["pkg"; "tool"; "linux_amd64"] ["compile"] H)).
Defined.

End CreateTarMore.
